(** * Deep-researcher client: command protocol, argument parser, resource
      cache, message composer, agent graph and session driver

    A shallow embedding of [client.py].  Python [str] values are modelled as
    Rocq strings whose characters are the code points below 256; Python
    exceptions are values of [exn] carried by the result type [py]; the
    process-wide dictionary [loaded_resources] is an insertion-ordered
    association list; the interactive loop threads an explicit [world]
    (resource cache, checkpointed conversation, pending console input and the
    trace of observable events) through a small state-and-exception monad. *)

From Stdlib Require Import String Ascii List Bool Arith ZArith Lia.
Import ListNotations.
Open Scope string_scope.

Set Implicit Arguments.

(* ================================================================== *)
(** * Part I. Definitions                                              *)
(* ================================================================== *)

(** ** Python exceptions and results *)

Inductive exn_class : Type :=
| JSONDecodeError
| ValueError
| IndexError
| TypeError
| EOFError
| RecursionError
| GraphRecursionError
| McpError
| RuntimeError
| NotADirectoryError.

Record exn : Type := Exn { exn_cls : exn_class; exn_msg : string }.

Definition exn_class_eqb (a b : exn_class) : bool :=
  match a, b with
  | JSONDecodeError, JSONDecodeError | ValueError, ValueError
  | IndexError, IndexError | TypeError, TypeError | EOFError, EOFError
  | RecursionError, RecursionError
  | GraphRecursionError, GraphRecursionError
  | McpError, McpError | RuntimeError, RuntimeError
  | NotADirectoryError, NotADirectoryError => true
  | _, _ => false
  end.

Inductive py (A : Type) : Type :=
| Ok (a : A)
| Raise (e : exn).
Arguments Ok {A} a.
Arguments Raise {A} e.

Definition py_bind {A B} (m : py A) (k : A -> py B) : py B :=
  match m with
  | Ok a => k a
  | Raise e => Raise e
  end.

Declare Scope py_scope.
Delimit Scope py_scope with py.
Notation "x <- m ;; k" := (py_bind m (fun x => k))
  (at level 61, m at next level, right associativity) : py_scope.

(** ** Python string primitives *)

Module Str.

Definition dquote : ascii := "034"%char.
Definition newline : ascii := "010"%char.
Definition tab : ascii := "009"%char.
Definition space : ascii := " "%char.

Definition nl : string := String newline "".

(** [str.isspace] on one character (code points below 256). *)
Definition isspace (c : ascii) : bool :=
  let n := nat_of_ascii c in
  (((9 <=? n) && (n <=? 13)) || ((28 <=? n) && (n <=? 32))
   || (n =? 133) || (n =? 160))%nat.

Fixpoint mem (c : ascii) (chars : string) : bool :=
  match chars with
  | EmptyString => false
  | String d r => Ascii.eqb c d || mem c r
  end.

Fixpoint lstrip_by (p : ascii -> bool) (s : string) : string :=
  match s with
  | EmptyString => EmptyString
  | String c r => if p c then lstrip_by p r else s
  end.

Fixpoint rstrip_by (p : ascii -> bool) (s : string) : string :=
  match s with
  | EmptyString => EmptyString
  | String c r =>
      match rstrip_by p r with
      | EmptyString => if p c then EmptyString else String c EmptyString
      | r' => String c r'
      end
  end.

(** [s.strip()] *)
Definition strip (s : string) : string :=
  rstrip_by isspace (lstrip_by isspace s).

(** [s.strip(chars)] *)
Definition strip_chars (chars s : string) : string :=
  rstrip_by (fun c => mem c chars) (lstrip_by (fun c => mem c chars) s).

(** [s.startswith(p)] *)
Definition startswith (s p : string) : bool := String.prefix p s.

Fixpoint drop (n : nat) (s : string) : string :=
  match n, s with
  | O, _ => s
  | S _, EmptyString => EmptyString
  | S n', String _ r => drop n' r
  end.

Fixpoint take (n : nat) (s : string) : string :=
  match n, s with
  | O, _ => EmptyString
  | S _, EmptyString => EmptyString
  | S n', String c r => String c (take n' r)
  end.

(** Cut [s] around the first occurrence of the non-empty separator
    [sep]. *)
Fixpoint partition (sep s : string) : option (string * string) :=
  if String.prefix sep s then Some (EmptyString, drop (String.length sep) s)
  else match s with
       | EmptyString => None
       | String c r =>
           match partition sep r with
           | Some (a, b) => Some (String c a, b)
           | None => None
           end
       end.

(** [s.split(sep, 1)] for a non-empty [sep]. *)
Definition split1 (s sep : string) : list string :=
  match partition sep s with
  | Some (a, b) => [a; b]
  | None => [s]
  end.

(** [s.split(sep)] for a non-empty [sep]; the fuel bounds the number of
    separators, which is at most the length of [s]. *)
Fixpoint split_fuel (fuel : nat) (s sep : string) : list string :=
  match fuel with
  | O => [s]
  | S f =>
      match partition sep s with
      | Some (a, b) => a :: split_fuel f b sep
      | None => [s]
      end
  end.

Definition split (s sep : string) : list string :=
  split_fuel (String.length s) s sep.

(** [s.find(sub)]: index of the first occurrence, or -1. *)
Fixpoint find (s sub : string) : Z :=
  if String.prefix sub s then 0%Z
  else match s with
       | EmptyString => (-1)%Z
       | String _ r =>
           let i := find r sub in
           if (i <? 0)%Z then (-1)%Z else (i + 1)%Z
       end.

(** [sub in s] *)
Definition contains (sub s : string) : bool := (0 <=? find s sub)%Z.

(** Slice bounds are clamped the way Python clamps them. *)
Definition clamp (s : string) (i : Z) : nat :=
  let n := Z.of_nat (String.length s) in
  if (i <? 0)%Z then Z.to_nat (Z.max 0 (n + i)) else Z.to_nat (Z.min i n).

(** [s[:i]] *)
Definition slice_to (s : string) (i : Z) : string := take (clamp s i) s.

(** [s[i:]] *)
Definition slice_from (s : string) (i : Z) : string := drop (clamp s i) s.

(** [str.lower] on one character (code points below 256). *)
Definition lower_char (c : ascii) : ascii :=
  let n := nat_of_ascii c in
  if (((65 <=? n) && (n <=? 90))
      || ((192 <=? n) && (n <=? 222) && negb (n =? 215)))%nat
  then ascii_of_nat (n + 32) else c.

Fixpoint lower (s : string) : string :=
  match s with
  | EmptyString => EmptyString
  | String c r => String (lower_char c) (lower r)
  end.

(** [sep.join(l)] *)
Fixpoint join (sep : string) (l : list string) : string :=
  match l with
  | [] => EmptyString
  | [x] => x
  | x :: r => x ++ sep ++ join sep r
  end.

Definition is_empty (s : string) : bool :=
  match s with EmptyString => true | _ => false end.

(** Replace every apostrophe by a double quote; used to write texts that
    contain double quotes. *)
Fixpoint q (s : string) : string :=
  match s with
  | EmptyString => EmptyString
  | String c r => String (if Ascii.eqb c "'"%char then dquote else c) (q r)
  end.

End Str.

(** [l[i]] on a Python list. *)
Definition list_getitem {A} (l : list A) (i : nat) : py A :=
  match nth_error l i with
  | Some a => Ok a
  | None => Raise (Exn IndexError "list index out of range")
  end.

(** ** Command classifier: [extract_meta_command] *)

(** The second component of the pair returned by [extract_meta_command]:
    [None], a string, or a pair of strings. *)
Inductive meta_value : Type :=
| VNone
| VStr (s : string)
| VPair (resource_uri user_query : string).

Definition extract_meta_command (message : string)
  : py (option string * meta_value) :=
  (if Str.startswith message "@resource:" then
     r <- list_getitem (Str.split1 message ":") 1 ;;
     Ok (Some "resource",
         VStr (Str.strip_chars (String Str.dquote "") (Str.strip r)))
   else if Str.startswith message "@prompt:" then
     r <- list_getitem (Str.split1 message ":") 1 ;;
     Ok (Some "prompt",
         VStr (Str.strip_chars (String Str.dquote "") (Str.strip r)))
   else if Str.startswith message "@use_resource:" then
     r <- list_getitem (Str.split1 message ":") 1 ;;
     let parts := Str.strip r in
     let space_index := Str.find parts " " in
     if negb (space_index =? -1)%Z then
       let resource_uri := Str.strip (Str.slice_to parts space_index) in
       let user_query := Str.strip (Str.slice_from parts (space_index + 1)) in
       Ok (Some "use_resource", VPair resource_uri user_query)
     else
       Ok (Some "use_resource", VPair (Str.strip parts) "")
   else Ok (None, VNone))%py.


(** ** Python values and dictionaries *)

(** A Python [float] as [json.loads] produces it: the double nearest to a
    decimal [m * 10 ^ e], or one of the three constants. *)
Inductive pyfloat : Type :=
| FNaN
| FInf (negative : bool)
| FDec (m e : Z).

(** The double nearest to [m * 10 ^ e] is zero exactly when the decimal is at
    most half the least positive double, [2 ^ -1075] (a tie rounds to even). *)
Definition float_is_zero (x : pyfloat) : bool :=
  match x with
  | FNaN | FInf _ => false
  | FDec m e =>
      (m =? 0)%Z || ((e <? 0)%Z && (Z.abs m * 2 ^ 1075 <=? 10 ^ (- e))%Z)
  end.

(** The values [json.loads] can produce. *)
#[warnings="-register-all"]
Inductive pyvalue : Type :=
| PyNone
| PyBool (b : bool)
| PyInt (z : Z)
| PyFloat (x : pyfloat)
| PyStr (s : string)
| PyList (l : list pyvalue)
| PyDict (d : list (string * pyvalue)).

(** Python truth value: [bool(v)]. *)
Definition truthy (v : pyvalue) : bool :=
  match v with
  | PyNone => false
  | PyBool b => b
  | PyInt z => negb (z =? 0)%Z
  | PyFloat x => negb (float_is_zero x)
  | PyStr s => negb (Str.is_empty s)
  | PyList l => match l with [] => false | _ => true end
  | PyDict d => match d with [] => false | _ => true end
  end.

Definition is_dict (v : pyvalue) : bool :=
  match v with PyDict _ => true | _ => false end.

(** A Python [dict] with string keys: keys are unique and kept in insertion
    order. *)
Module Dict.
Section WithValue.
Variable V : Type.

Definition t : Type := list (string * V).

Definition empty : t := [].

Fixpoint get (d : t) (k : string) : option V :=
  match d with
  | [] => None
  | (k', v) :: r => if String.eqb k k' then Some v else get r k
  end.

(** [k in d] *)
Definition contains (d : t) (k : string) : bool :=
  match get d k with Some _ => true | None => false end.

(** [d[k] = v]: an existing key keeps its position. *)
Fixpoint setitem (d : t) (k : string) (v : V) : t :=
  match d with
  | [] => [(k, v)]
  | (k', v') :: r =>
      if String.eqb k k' then (k', v) :: r else (k', v') :: setitem r k v
  end.

(** [del d[k]] for a key that is present. *)
Fixpoint delitem (d : t) (k : string) : t :=
  match d with
  | [] => []
  | (k', v') :: r =>
      if String.eqb k k' then r else (k', v') :: delitem r k
  end.

(** [list(d.keys())] *)
Definition keys (d : t) : list string := map fst d.

End WithValue.
End Dict.

(** ** [repr] of strings and of lists of strings *)

Module Repr.

Definition hex_digit (n : nat) : ascii :=
  nth n (list_ascii_of_string "0123456789abcdef") "0"%char.

Definition isprintable (c : ascii) : bool :=
  let n := nat_of_ascii c in
  ((32 <=? n) && (n <=? 126) || (161 <=? n) && negb (n =? 173))%nat.

Definition escape_char (quote c : ascii) : string :=
  if Ascii.eqb c quote || Ascii.eqb c "\"%char
  then String "\"%char (String c "")
  else if Ascii.eqb c Str.tab then "\t"
  else if Ascii.eqb c Str.newline then "\n"
  else if Ascii.eqb c "013"%char then "\r"
  else if isprintable c then String c ""
  else let n := nat_of_ascii c in
       String "\"%char
         (String "x"%char
            (String (hex_digit (n / 16)) (String (hex_digit (n mod 16)) ""))).

Fixpoint escape (quote : ascii) (s : string) : string :=
  match s with
  | EmptyString => EmptyString
  | String c r => escape_char quote c ++ escape quote r
  end.

(** [repr(s)]: single quotes unless the text holds a single quote and no
    double quote. *)
Definition str (s : string) : string :=
  let quote :=
    if Str.mem "'"%char s && negb (Str.mem Str.dquote s)
    then Str.dquote else "'"%char in
  String quote (escape quote s) ++ String quote "".

(** [repr(l)] for a list of strings. *)
Definition str_list (l : list string) : string :=
  "[" ++ Str.join ", " (map str l) ++ "]".

End Repr.

(** ** Argument parser: [parse_arguments] *)

Section ArgumentParser.

(** [json.loads], the decoder of the Python standard library: it returns
    the decoded value or raises. *)
Variable json_loads : string -> py pyvalue.

(** The body of the [for pair in pairs] loop of the second strategy.  The
    dictionary [args] is mutated in place, so what was inserted before an
    exception stays inserted: the loop returns the dictionary together with
    the exception that interrupted it, if any. *)
Fixpoint parse_pairs (pairs : list string) (args : Dict.t pyvalue)
  : Dict.t pyvalue * option exn :=
  match pairs with
  | [] => (args, None)
  | pair_ :: rest =>
      if Str.contains ":" pair_ then
        match map Str.strip (Str.split1 pair_ ":") with
        | [key; val] => parse_pairs rest (Dict.setitem args key (PyStr val))
        | _ => (args, Some (Exn ValueError "wrong number of values to unpack"))
        end
      else parse_pairs rest args
  end.

Definition parse_arguments (raw_input_str : string) : py pyvalue :=
  let args : Dict.t pyvalue := Dict.empty _ in
  let raw_input_str := Str.strip raw_input_str in
  (* Try JSON format first *)
  match json_loads raw_input_str with
  | Ok args => Ok args
  | Raise e =>
      if negb (exn_class_eqb (exn_cls e) JSONDecodeError) then Raise e
      else
        (* Try key:value pairs separated by commas *)
        match parse_pairs (Str.split raw_input_str ",") args with
        | (args, None) => Ok (PyDict args)
        | (args, Some _) =>
            (* Fallback to single key:value *)
            match map Str.strip (Str.split1 raw_input_str ":") with
            | [key; val] => Ok (PyDict (Dict.setitem args key (PyStr val)))
            | _ => Ok (PyDict [])
            end
        end
  end.

End ArgumentParser.

(** ** Message composer: [inject_resource_into_message] *)

Definition inject_resource_into_message
    (loaded_resources : Dict.t string) (user_query resource_uri : string)
  : string :=
  if Dict.contains loaded_resources resource_uri then
    match Dict.get loaded_resources resource_uri with
    | Some resource_content =>
        "[USING RESOURCE: " ++ resource_uri ++ "]" ++ Str.nl
        ++ resource_content ++ Str.nl ++ Str.nl
        ++ "User query: " ++ user_query
    | None => EmptyString
    end
  else
    "[ERROR: Resource '" ++ resource_uri
    ++ "' not found. Available resources: "
    ++ Repr.str_list (Dict.keys loaded_resources) ++ "]"
    ++ Str.nl ++ Str.nl ++ "User query: " ++ user_query.

(** ** A reference JSON decoder

    [parse_arguments] is parametric in the decoder.  [Json.loads] is a
    reference decoder used to run the parser on concrete texts.  It follows
    the scanner of the standard library: optional blanks, one value, optional
    blanks, nothing else; objects with double-quoted keys, arrays, strings
    with the usual escapes, [null], [true], [false], numbers, and the
    constants [NaN], [Infinity] and [-Infinity].  Every failure it reports is
    a [JSONDecodeError].  A [\u] escape is decoded when it denotes a code
    point below 256. *)

Module Json.

Definition err {A} (msg : string) : py A := Raise (Exn JSONDecodeError msg).

Definition is_ws (c : ascii) : bool := Str.mem c (String " " (String Str.tab (String Str.newline (String "013" "")))).

Definition skip_ws (s : string) : string := Str.lstrip_by is_ws s.

Definition is_digit (c : ascii) : bool :=
  let n := nat_of_ascii c in ((48 <=? n) && (n <=? 57))%nat.

Definition digit_val (c : ascii) : Z := Z.of_nat (nat_of_ascii c - 48).

Fixpoint span_digits (s : string) : string * string :=
  match s with
  | String c r =>
      if is_digit c then let (d, r') := span_digits r in (String c d, r')
      else (EmptyString, s)
  | EmptyString => (EmptyString, EmptyString)
  end.

Fixpoint digits_value (acc : Z) (s : string) : Z :=
  match s with
  | EmptyString => acc
  | String c r => digits_value (10 * acc + digit_val c) r
  end.

Definition hex_val (c : ascii) : option nat :=
  let n := nat_of_ascii c in
  if ((48 <=? n) && (n <=? 57))%nat then Some (n - 48)
  else if ((97 <=? n) && (n <=? 102))%nat then Some (n - 87)
  else if ((65 <=? n) && (n <=? 70))%nat then Some (n - 55)
  else None.

(** The text of a string literal after its opening quote. *)
Fixpoint scanstring (s : string) : py (string * string) :=
  match s with
  | EmptyString => err "Unterminated string"
  | String c r =>
      if Ascii.eqb c Str.dquote then Ok (EmptyString, r)
      else if Ascii.eqb c "\"%char then
        match r with
        | String "u" (String h1 (String h2 (String h3 (String h4 r')))) =>
            match hex_val h1, hex_val h2, hex_val h3, hex_val h4 with
            | Some 0, Some 0, Some a, Some b =>
                match scanstring r' with
                | Ok (t, rest) => Ok (String (ascii_of_nat (16 * a + b)) t, rest)
                | Raise e => Raise e
                end
            | _, _, _, _ => err "Invalid \uXXXX escape"
            end
        | String e r' =>
            let decoded :=
              if Ascii.eqb e Str.dquote then Some Str.dquote
              else if Ascii.eqb e "\"%char then Some "\"%char
              else if Ascii.eqb e "/"%char then Some "/"%char
              else if Ascii.eqb e "b"%char then Some "008"%char
              else if Ascii.eqb e "f"%char then Some "012"%char
              else if Ascii.eqb e "n"%char then Some Str.newline
              else if Ascii.eqb e "r"%char then Some "013"%char
              else if Ascii.eqb e "t"%char then Some Str.tab
              else None in
            match decoded with
            | Some d =>
                match scanstring r' with
                | Ok (t, rest) => Ok (String d t, rest)
                | Raise x => Raise x
                end
            | None => err "Invalid \escape"
            end
        | EmptyString => err "Unterminated string"
        end
      else if (nat_of_ascii c <? 32)%nat then err "Invalid control character"
      else match scanstring r with
           | Ok (t, rest) => Ok (String c t, rest)
           | Raise e => Raise e
           end
  end.


(** A number at the head of [s], as the scanner's pattern reads it: an
    optional minus sign; a single zero or a non-zero digit followed by
    digits; optionally a point and at least one digit; optionally an
    exponent mark, an optional sign and at least one digit.  Without
    fraction and exponent the number is an [int], otherwise a [float]. *)
Definition scan_number (s : string) : option (pyvalue * string) :=
  let (negative, s1) :=
    match s with
    | String "-" r => (true, r)
    | _ => (false, s)
    end in
  let sign := if negative then (-1)%Z else 1%Z in
  let int_part :=
    match s1 with
    | String "0" r => Some ("0", r)
    | String c _ =>
        if is_digit c then Some (span_digits s1) else None
    | EmptyString => None
    end in
  match int_part with
  | None => None
  | Some (int_digits, s2) =>
      let (frac_digits, s3) :=
        match s2 with
        | String "." r =>
            match span_digits r with
            | (EmptyString, _) => (EmptyString, s2)
            | (d, r') => (d, r')
            end
        | _ => (EmptyString, s2)
        end in
      let (exponent, s4) :=
        match s3 with
        | String c r =>
            if Str.mem c "eE" then
              let (exp_negative, r1) :=
                match r with
                | String "-" r' => (true, r')
                | String "+" r' => (false, r')
                | _ => (false, r)
                end in
              match span_digits r1 with
              | (EmptyString, _) => (None, s3)
              | (d, r') =>
                  (Some (if exp_negative then (- digits_value 0 d)%Z
                         else digits_value 0 d), r')
              end
            else (None, s3)
        | EmptyString => (None, s3)
        end in
      match frac_digits, exponent with
      | EmptyString, None =>
          Some (PyInt (sign * digits_value 0 int_digits), s4)
      | _, _ =>
          let m := (sign * digits_value 0 (int_digits ++ frac_digits))%Z in
          let e := (match exponent with Some x => x | None => 0 end
                    - Z.of_nat (String.length frac_digits))%Z in
          Some (PyFloat (FDec m e), s4)
      end
  end.

(** [dict(pairs)]: a repeated key keeps its first position and its last
    value. *)
Definition dict_of_pairs (pairs : list (string * pyvalue))
  : Dict.t pyvalue :=
  fold_left (fun d kv => Dict.setitem d (fst kv) (snd kv)) pairs
            (Dict.empty _).

Definition literal (s lit : string) (v : pyvalue)
  : option (pyvalue * string) :=
  if Str.startswith s lit then Some (v, Str.drop (String.length lit) s)
  else None.

(** The value at the head of [s]; [members] and [elements] read what follows
    the opening brace or bracket once the first item is known to be
    there. *)
Fixpoint scan_once (fuel : nat) (s : string) : py (pyvalue * string) :=
  match fuel with
  | O => Raise (Exn RecursionError "maximum recursion depth exceeded")
  | S f =>
      match s with
      | String "{" r =>
          let r := skip_ws r in
          match r with
          | String "}" r' => Ok (PyDict [], r')
          | _ =>
              match members f r [] with
              | Ok (pairs, rest) => Ok (PyDict (dict_of_pairs pairs), rest)
              | Raise e => Raise e
              end
          end
      | String "[" r =>
          let r := skip_ws r in
          match r with
          | String "]" r' => Ok (PyList [], r')
          | _ =>
              match elements f r [] with
              | Ok (l, rest) => Ok (PyList l, rest)
              | Raise e => Raise e
              end
          end
      | String c r =>
          if Ascii.eqb c Str.dquote then
            match scanstring r with
            | Ok (t, rest) => Ok (PyStr t, rest)
            | Raise e => Raise e
            end
          else
            let first_of :=
              fix first_of (l : list (option (pyvalue * string))) :=
                match l with
                | [] => err "Expecting value"
                | Some x :: _ => Ok x
                | None :: l' => first_of l'
                end in
            first_of [ literal s "null" PyNone;
                       literal s "true" (PyBool true);
                       literal s "false" (PyBool false);
                       scan_number s;
                       literal s "NaN" (PyFloat FNaN);
                       literal s "Infinity" (PyFloat (FInf false));
                       literal s "-Infinity" (PyFloat (FInf true)) ]
      | EmptyString => err "Expecting value"
      end
  end

with members (fuel : nat) (s : string) (acc : list (string * pyvalue))
  : py (list (string * pyvalue) * string) :=
  match fuel with
  | O => Raise (Exn RecursionError "maximum recursion depth exceeded")
  | S f =>
      match s with
      | String c r =>
          if negb (Ascii.eqb c Str.dquote)
          then err "Expecting property name enclosed in double quotes"
          else
            match scanstring r with
            | Raise e => Raise e
            | Ok (key, r1) =>
                match skip_ws r1 with
                | String ":" r2 =>
                    match scan_once f (skip_ws r2) with
                    | Raise e => Raise e
                    | Ok (v, r3) =>
                        match skip_ws r3 with
                        | String "}" r4 => Ok ((acc ++ [(key, v)])%list, r4)
                        | String "," r4 =>
                            members f (skip_ws r4) (acc ++ [(key, v)])%list
                        | _ => err "Expecting ',' delimiter"
                        end
                    end
                | _ => err "Expecting ':' delimiter"
                end
            end
      | EmptyString =>
          err "Expecting property name enclosed in double quotes"
      end
  end

with elements (fuel : nat) (s : string) (acc : list pyvalue)
  : py (list pyvalue * string) :=
  match fuel with
  | O => Raise (Exn RecursionError "maximum recursion depth exceeded")
  | S f =>
      match scan_once f s with
      | Raise e => Raise e
      | Ok (v, r1) =>
          match skip_ws r1 with
          | String "]" r2 => Ok ((acc ++ [v])%list, r2)
          | String "," r2 => elements f (skip_ws r2) (acc ++ [v])%list
          | _ => err "Expecting ',' delimiter"
          end
      end
  end.

(** [json.loads(s)] *)
Definition loads (s : string) : py pyvalue :=
  match scan_once (2 * String.length s + 2) (skip_ws s) with
  | Raise e => Raise e
  | Ok (v, rest) =>
      match skip_ws rest with
      | EmptyString => Ok v
      | _ => err "Extra data"
      end
  end.

End Json.

(** ** Conversation and backends *)

Record tool_call : Type :=
  ToolCall { tc_name : string; tc_args : pyvalue; tc_id : string }.

Inductive message : Type :=
| SystemMessage (content : string)
| HumanMessage (content : string)
| AIMessage (content : string) (tool_calls : list tool_call)
| ToolMessage (content : string) (name : string) (tool_call_id : string).

Definition content_of (m : message) : string :=
  match m with
  | SystemMessage c | HumanMessage c | AIMessage c _ | ToolMessage c _ _ => c
  end.

(** What the client consumes from the outside: the chat model bound to the
    tools (the content and the tool calls of its reply, or a failure), the
    execution of one tool call by the prebuilt tool node (the tool's output or
    the description of its failure), the two loaders of the MCP adapters (the
    contents of the prompt's messages, the texts of the fetched blobs), the
    JSON decoder, and the recursion limit of the graph runtime (at least 1,
    and 25 when the configuration names none, as here): an invocation ends
    well only when its last node runs before the limit is reached. *)
Record backend : Type := Backend {
  llm : list message -> py (string * list tool_call);
  run_tool : tool_call -> string;
  load_mcp_prompt : string -> option pyvalue -> py (list string);
  load_mcp_resources : string -> py (list string);
  json_loads : string -> py pyvalue;
  recursion_limit : nat
}.

(** ** Agent graph: [create_graph] *)

Definition system_prompt : string :=
  "You are a deep research assistant that uses tools to solve problems.".

(** The reducer of the [messages] channel.  Every message of this program
    receives a fresh identifier, so the reducer appends. *)
Definition add_messages (left right : list message) : list message :=
  (left ++ right)%list.

Inductive node : Type := N_chat_node | N_tool_node.

Section Graph.
Variable B : backend.

(** [chat_node]: the prompt template puts the system instruction before the
    accumulated messages; the reply is returned as the update. *)
Definition chat_node (messages : list message) : py (list message) :=
  match llm B (SystemMessage system_prompt :: messages) with
  | Ok (content, calls) => Ok [AIMessage content calls]
  | Raise e => Raise e
  end.

(** [tools_condition]: route on the tool calls of the last message. *)
Definition tools_condition (messages : list message) : string :=
  match last messages (HumanMessage "") with
  | AIMessage _ (_ :: _) => "tools"
  | _ => "__end__"
  end.

Definition tool_result (tc : tool_call) : message :=
  ToolMessage (run_tool B tc) (tc_name tc) (tc_id tc).

(** The prebuilt tool node: one tool message per call of the last
    assistant message, in the order of the calls. *)
Definition tool_node (messages : list message) : py (list message) :=
  match last messages (HumanMessage "") with
  | AIMessage _ calls => Ok (map tool_result calls)
  | _ => Raise (Exn ValueError "Last message is not an AIMessage")
  end.

(** The compiled graph from one node onward.  The edges are those of
    [create_graph]: [chat_node] goes where [tools_condition] says
    ([tools] to [tool_node], [__end__] to the end), [tool_node] goes back to
    [chat_node].  The runtime applies the writes of a node, then checks the
    recursion limit, and only then looks whether a node is left to run: the
    node that is the [limit]-th to run is still run and its messages are
    kept, but the invocation then fails with [GraphRecursionError] even when
    that node was the last one.  The checkpointer keeps what was written
    before a failure, so the messages are returned in every case. *)
Fixpoint run_from (limit : nat) (n : node) (messages : list message)
  : list message * py unit :=
  match limit with
  | O => (messages, Raise (Exn GraphRecursionError "Recursion limit reached"))
  | S limit' =>
      match n with
      | N_chat_node =>
          match chat_node messages with
          | Raise e => (messages, Raise e)
          | Ok update =>
              let messages' := add_messages messages update in
              if String.eqb (tools_condition messages') "tools"
              then run_from limit' N_tool_node messages'
              else (messages',
                    match limit' with
                    | O => Raise (Exn GraphRecursionError
                                      "Recursion limit reached")
                    | S _ => Ok tt
                    end)
          end
      | N_tool_node =>
          match tool_node messages with
          | Raise e => (messages, Raise e)
          | Ok update =>
              run_from limit' N_chat_node (add_messages messages update)
          end
      end
  end.

(** [agent.ainvoke({"messages": text}, config)] on the checkpointed
    conversation of the one thread the client uses: the text is added as a
    user message, the graph runs from its entry node, and the caller reads
    the content of the last message. *)
Definition ainvoke (conversation : list message) (text : string)
  : list message * py string :=
  let (messages, outcome) :=
    run_from (recursion_limit B) N_chat_node
             (add_messages conversation [HumanMessage text]) in
  (messages,
   match outcome with
   | Ok _ => Ok (content_of (last messages (HumanMessage "")))
   | Raise e => Raise e
   end).

End Graph.

(** ** Interactive session driver: the loop of [main] *)

(** The texts the loop prints, one constructor per [print] call, with the
    values interpolated into it. *)
Inductive output : Type :=
| OutQueryMissing
| OutUsage
| OutNotLoaded (resource_uri : string)
| OutLoadItFirst (resource_uri : string)
| OutAI (content : string)
| OutAgentError (e : exn)
| OutLoadedPrompt (name : string)
| OutPromptContent (shown : string)
| OutResearchBegin
| OutResearchEnd
| OutNoPromptMessages
| OutRequiresArguments (name : string) (e : exn)
| OutEnterArguments
| OutFormatSimple
| OutFormatMultiple
| OutFormatJSON
| OutParseFailed
| OutLoadedPromptWith (name : string) (args : pyvalue)
| OutFailedPromptWith (ex : exn)
| OutArgumentsProvided (args : pyvalue)
| OutUpdatingResource (uri : string)
| OutLoadedResource (uri : string)
| OutNoResourceFound (uri : string)
| OutFailedResource (e : exn).

Inductive input_prompt : Type := UserPrompt | ArgumentsPrompt.

(** What an observer of one session sees, in order. *)
Inductive event : Type :=
| Printed (o : output)
| LineRead (p : input_prompt) (line : string)
| AgentInvoked (text : string)
| PromptRequested (name : string) (arguments : option pyvalue)
| ResourceRequested (uri : string).

Record world : Type := World {
  loaded_resources : Dict.t string;
  conversation : list message;
  stdin : list string;
  trace : list event
}.

Definition M (A : Type) : Type := world -> py A * world.

Definition ret {A} (a : A) : M A := fun w => (Ok a, w).

Definition bind {A B} (m : M A) (k : A -> M B) : M B :=
  fun w => match m w with
           | (Ok a, w') => k a w'
           | (Raise e, w') => (Raise e, w')
           end.

(** [try: m except Exception as e: handler e].  What [m] did to the world
    before it raised stays done. *)
Definition try_except {A} (m : M A) (handler : exn -> M A) : M A :=
  fun w => match m w with
           | (Ok a, w') => (Ok a, w')
           | (Raise e, w') => handler e w'
           end.

Definition lift {A} (r : py A) : M A := fun w => (r, w).

Declare Scope m_scope.
Delimit Scope m_scope with M.
Notation "x <- m ;; k" := (bind m (fun x => k))
  (at level 61, m at next level, right associativity) : m_scope.
Notation "m ;; k" := (bind m (fun _ => k))
  (at level 61, right associativity) : m_scope.

Definition emit (e : event) : M unit :=
  fun w => (Ok tt, World (loaded_resources w) (conversation w) (stdin w)
                         (trace w ++ [e])).

Definition print (o : output) : M unit := emit (Printed o).

(** [input(prompt)]; at the end of the input it raises [EOFError]. *)
Definition input (p : input_prompt) : M string :=
  fun w => match stdin w with
           | [] => (Raise (Exn EOFError "EOF when reading a line"), w)
           | line :: rest =>
               (Ok line, World (loaded_resources w) (conversation w) rest
                               (trace w ++ [LineRead p line]))
           end.

Definition get_resources : M (Dict.t string) :=
  fun w => (Ok (loaded_resources w), w).

Definition put_resources (d : Dict.t string) : M unit :=
  fun w => (Ok tt, World d (conversation w) (stdin w) (trace w)).

(** [prompt_message[:n]...] when the text is longer than [n], the text
    otherwise. *)
Definition shown (n : nat) (prompt_message : string) : string :=
  if (n <? String.length prompt_message)%nat
  then Str.take n prompt_message ++ "..."
  else prompt_message.

Inductive control : Type := Continue | Break.

Definition cmd_is (cmd_type : option string) (name : string) : bool :=
  match cmd_type with
  | Some c => String.eqb c name
  | None => false
  end.

Section Driver.
Variable B : backend.

Definition agent_ainvoke (text : string) : M string :=
  fun w =>
    let (messages, response) := ainvoke B (conversation w) text in
    (response, World (loaded_resources w) messages (stdin w)
                     (trace w ++ [AgentInvoked text])).

Definition call_load_mcp_prompt (name : string) (arguments : option pyvalue)
  : M (list string) :=
  (emit (PromptRequested name arguments) ;;
   lift (load_mcp_prompt B name arguments))%M.

Definition call_load_mcp_resources (uri : string) : M (list string) :=
  (emit (ResourceRequested uri) ;; lift (load_mcp_resources B uri))%M.

(** The text of a resolved prompt: the content of its only message, or the
    contents of all its messages joined by newlines. *)
Definition prompt_text (prompt : list string) : string :=
  match prompt with
  | [only] => only
  | _ => Str.join Str.nl prompt
  end.

Definition run_research (prompt_message : string) : M unit :=
  try_except
    (response <- agent_ainvoke prompt_message ;;
     print OutResearchBegin ;;
     print (OutAI response) ;;
     print OutResearchEnd)%M
    (fun e => print (OutAgentError e)).

Definition run_chat (text : string) : M unit :=
  try_except
    (response <- agent_ainvoke text ;; print (OutAI response))%M
    (fun e => print (OutAgentError e)).

(** The branch [cmd_type == "use_resource"]. *)
Definition on_use_resource (value : meta_value) : M control :=
  match value with
  | VPair resource_uri user_query =>
      if Str.is_empty user_query then
        (print OutQueryMissing ;; print OutUsage ;; ret Continue)%M
      else
        (loaded <- get_resources ;;
         if negb (Dict.contains loaded resource_uri) then
           print (OutNotLoaded resource_uri) ;;
           print (OutLoadItFirst resource_uri) ;;
           ret Continue
         else
           let enhanced_message :=
             inject_resource_into_message loaded user_query resource_uri in
           run_chat enhanced_message ;;
           ret Continue)%M
  | _ => lift (Raise (Exn TypeError "cannot unpack non-iterable object"))
  end.

(** The handler of the outer [except] of the prompt branch: it runs for
    whatever the first resolution raised. *)
Definition on_prompt_failure (value : string) (e : exn) : M unit :=
  (print (OutRequiresArguments value e) ;;
   print OutEnterArguments ;;
   print OutFormatSimple ;;
   print OutFormatMultiple ;;
   print OutFormatJSON ;;
   line <- input ArgumentsPrompt ;;
   let raw_input_str := Str.strip line in
   args <- lift (parse_arguments (json_loads B) raw_input_str) ;;
   if negb (truthy args) then print OutParseFailed
   else
     try_except
       (prompt <- call_load_mcp_prompt value (Some args) ;;
        match prompt with
        | [] => print OutNoPromptMessages
        | _ =>
            let prompt_message := prompt_text prompt in
            print (OutLoadedPromptWith value args) ;;
            print (OutPromptContent (shown 500 prompt_message)) ;;
            run_research prompt_message
        end)
       (fun ex =>
          print (OutFailedPromptWith ex) ;;
          print (OutArgumentsProvided args)))%M.

(** The branch [cmd_type == "prompt"].  The contents of the prompt's
    messages are strings here, so building the text cannot fail and the
    inner handler around it has nothing to catch. *)
Definition on_prompt (value : meta_value) : M control :=
  match value with
  | VStr value =>
      (try_except
         (prompt <- call_load_mcp_prompt value None ;;
          match prompt with
          | [] => print OutNoPromptMessages
          | _ =>
              let prompt_message := prompt_text prompt in
              print (OutLoadedPrompt value) ;;
              print (OutPromptContent (shown 200 prompt_message)) ;;
              run_research prompt_message
          end)
         (on_prompt_failure value) ;;
       ret Continue)%M
  | _ => lift (Raise (Exn TypeError "prompt name is not a string"))
  end.

(** The branch [cmd_type == "resource"]. *)
Definition on_resource (value : meta_value) : M control :=
  match value with
  | VStr value =>
      (try_except
         (loaded <- get_resources ;;
          (* Remove old copy if exists *)
          (if Dict.contains loaded value then
             print (OutUpdatingResource value) ;;
             put_resources (Dict.delitem loaded value)
           else ret tt) ;;
          blob <- call_load_mcp_resources value ;;
          match blob with
          | first :: _ =>
              loaded <- get_resources ;;
              put_resources (Dict.setitem loaded value first) ;;
              print (OutLoadedResource value)
          | [] => print (OutNoResourceFound value)
          end)
         (fun e => print (OutFailedResource e)) ;;
       ret Continue)%M
  | _ => lift (Raise (Exn TypeError "resource URI is not a string"))
  end.

(** What the loop does with one line once it is read and stripped. *)
Definition dispatch (message : string) : M control :=
  if String.eqb (Str.lower message) "exit"
     || String.eqb (Str.lower message) "quit"
  then ret Break
  else
    (cv <- lift (extract_meta_command message) ;;
     let (cmd_type, value) := (cv : option string * meta_value) in
     if cmd_is cmd_type "use_resource" then on_use_resource value
     else if cmd_is cmd_type "prompt" then on_prompt value
     else if cmd_is cmd_type "resource" then on_resource value
     else (run_chat message ;; ret Continue))%M.

(** One iteration of [while True]. *)
Definition turn : M control :=
  (line <- input UserPrompt ;; dispatch (Str.strip line))%M.

(** The loop, for at most [fuel] iterations. *)
Fixpoint main_loop (fuel : nat) : M unit :=
  match fuel with
  | O => ret tt
  | S fuel' =>
      (c <- turn ;;
       match c with
       | Break => ret tt
       | Continue => main_loop fuel'
       end)%M
  end.

End Driver.

(** ** A sample backend

    A model stub that asks for one search and answers once a tool result is
    the last message; a prompt that needs a [topic]; one resource. *)

Module Sample.

Definition search_call : tool_call :=
  ToolCall "semantic_search" (PyDict [("query", PyStr "rocq")]) "call_1".

Definition stub_llm (messages : list message)
  : py (string * list tool_call) :=
  match last messages (SystemMessage "") with
  | ToolMessage _ _ _ => Ok ("Here is what I found.", [])
  | _ => Ok ("", [search_call])
  end.

Definition stub_tool (tc : tool_call) : string :=
  "output of " ++ tc_name tc.

Definition missing_arguments : exn :=
  Exn McpError "Missing required arguments".

Definition unknown_prompt (name : string) : exn :=
  Exn McpError ("Unknown prompt: " ++ name).

Definition stub_prompt (name : string) (arguments : option pyvalue)
  : py (list string) :=
  if String.eqb name "research_prompt" then
    match arguments with
    | Some (PyDict d) =>
        match Dict.get d "topic" with
        | Some (PyStr topic) => Ok ["Investigate " ++ topic]
        | _ => Raise missing_arguments
        end
    | _ => Raise missing_arguments
    end
  else Raise (unknown_prompt name).

Definition stub_resources (uri : string) : py (list string) :=
  if String.eqb uri "vector://list" then Ok ["DB Name: papers"]
  else Raise (Exn McpError ("Unknown resource: " ++ uri)).

Definition B : backend :=
  Backend stub_llm stub_tool stub_prompt stub_resources Json.loads 25.

Definition start (lines : list string) : world := World [] [] lines [].

End Sample.

(** ** Vocabulary of the properties *)

Fixpoint all_chars (p : ascii -> bool) (s : string) : bool :=
  match s with
  | EmptyString => true
  | String c r => p c && all_chars p r
  end.

Definition first_char (s : string) : option ascii :=
  match s with
  | EmptyString => None
  | String c _ => Some c
  end.

Fixpoint last_char (s : string) : option ascii :=
  match s with
  | EmptyString => None
  | String c EmptyString => Some c
  | String _ r => last_char r
  end.

(** [s] neither starts nor ends with a character satisfying [p]. *)
Definition bare (p : ascii -> bool) (s : string) : Prop :=
  (forall c, first_char s = Some c -> p c = false)
  /\ (forall c, last_char s = Some c -> p c = false).

Definition is_dquote (c : ascii) : bool := Str.mem c (String Str.dquote "").

(** The split as the specification words it, for comparison with the
    classifier: the URI token ends at the first whitespace character of the
    trimmed remainder, the query is what follows, trimmed; without whitespace
    the query is empty. *)
Fixpoint span_nonspace (s : string) : string * string :=
  match s with
  | EmptyString => (EmptyString, EmptyString)
  | String c r =>
      if Str.isspace c then (EmptyString, s)
      else let (a, b) := span_nonspace r in (String c a, b)
  end.

Definition spec_split_first_whitespace (remainder : string)
  : string * string :=
  let (uri, rest) := span_nonspace (Str.strip remainder) in
  (uri, Str.strip rest).




(** The texts the agent was invoked with, in order. *)
Definition agent_calls (evs : list event) : list string :=
  flat_map (fun e => match e with AgentInvoked t => [t] | _ => [] end) evs.

(** The requests for a prompt, in order. *)
Definition resolutions (evs : list event) : list (string * option pyvalue) :=
  flat_map (fun e => match e with
                     | PromptRequested n a => [(n, a)]
                     | _ => []
                     end) evs.

(** The marker-plus-content-plus-query form of a composed message. *)
Definition using_resource_text (uri content query : string) : string :=
  "[USING RESOURCE: " ++ uri ++ "]" ++ Str.nl
  ++ content ++ Str.nl ++ Str.nl ++ "User query: " ++ query.

Ltac run_monad :=
  unfold bind, ret, print, emit, lift, try_except, get_resources,
    put_resources; cbn.

(** What the handler of a failed first resolution shows before it reads the
    arguments. *)
Definition argument_help (name : string) (e : exn) : list event :=
  [Printed (OutRequiresArguments name e);
   Printed OutEnterArguments;
   Printed OutFormatSimple;
   Printed OutFormatMultiple;
   Printed OutFormatJSON].

(** ** Further vocabulary *)

(** No key occurs twice, as in every Python dictionary. *)
Fixpoint unique_keys (ks : list string) : bool :=
  match ks with
  | [] => true
  | k :: r => negb (existsb (String.eqb k) r) && unique_keys r
  end.

Definition dict_wf {V : Type} (d : Dict.t V) : bool :=
  unique_keys (Dict.keys d).

(** The text [k1:v1, k2:v2, ...] that the argument help advertises. *)
Definition format_pairs (kvs : list (string * string)) : string :=
  Str.join ", " (map (fun kv => fst kv ++ ":" ++ snd kv) kvs).

(** The dictionary obtained by assigning the pairs in order. *)
Definition dict_of_str_pairs (kvs : list (string * string))
  : Dict.t pyvalue :=
  fold_left (fun d kv => Dict.setitem d (fst kv) (PyStr (snd kv))) kvs
            (Dict.empty _).

(** A key and a value that the pair format can carry: trimmed, the key free
    of colons and commas, the value free of commas. *)
Definition clean_pair (kv : string * string) : bool :=
  negb (Str.mem ":" (fst kv)) && negb (Str.mem "," (fst kv))
  && String.eqb (Str.strip (fst kv)) (fst kv)
  && negb (Str.mem "," (snd kv))
  && String.eqb (Str.strip (snd kv)) (snd kv).

(** An entry of the mapping that the pair strategy builds. *)
Definition pair_entry (kv : string * pyvalue) : Prop :=
  exists val,
    snd kv = PyStr val
    /\ bare Str.isspace (fst kv) /\ bare Str.isspace val
    /\ Str.mem ":" (fst kv) = false /\ Str.mem "," (fst kv) = false
    /\ Str.mem "," val = false.

(** A text that is not empty and neither starts nor ends with whitespace. *)
Definition solid (s : string) : Prop := s <> "" /\ bare Str.isspace s.

(** One pair of the pair format. *)
Definition pair_item (kv : string * string) : string :=
  fst kv ++ ":" ++ snd kv.

Definition is_exit_word (message : string) : bool :=
  String.eqb (Str.lower message) "exit"
  || String.eqb (Str.lower message) "quit".

(** ** Server: the resource of [op_server.py] *)

Module Server.

(** What [list_vector_databases] asks of the file system, each answer being
    a value or an exception: [VECTOR_DB_ROOT.exists()], and
    [VECTOR_DB_ROOT.iterdir()], which raises when [vector_dbs] is not a
    folder or cannot be listed and otherwise gives the entries in iteration
    order, each with its name and with the answer of
    [(p / "index.faiss").exists()] for it. *)
Record fs_view : Type := FsView {
  root_exists : py bool;
  iterdir : py (list (string * py bool))
}.

(** The list comprehension: entries are taken in order, the index check of
    an entry is made when the entry is reached, and the first check that
    raises ends the comprehension. *)
Fixpoint collect (entries : list (string * py bool)) : py (list string) :=
  match entries with
  | [] => Ok []
  | (name, check) :: rest =>
      match check with
      | Raise e => Raise e
      | Ok indexed =>
          match collect rest with
          | Raise e => Raise e
          | Ok vector_dbs =>
              Ok (if indexed then ("DB Name: " ++ name) :: vector_dbs
                  else vector_dbs)
          end
      end
  end.

Definition list_vector_databases (fs : fs_view) : py string :=
  match root_exists fs with
  | Raise e => Raise e
  | Ok false => Ok "(No vector databases found)"
  | Ok true =>
      match iterdir fs with
      | Raise e => Raise e
      | Ok entries =>
          match collect entries with
          | Raise e => Raise e
          | Ok vector_dbs => Ok (Str.join Str.nl vector_dbs)
          end
      end
  end.

End Server.

(** A decoder with the limit that the interpreter puts on the conversion of
    digit strings to integers: an integer literal of more than 4300 digits
    makes [json.loads] raise a [ValueError], which is not a
    [JSONDecodeError]. *)
Definition limited_loads (s : string) : py pyvalue :=
  if Json.is_digit (match s with String c _ => c | EmptyString => " "%char end)
     && all_chars Json.is_digit s && (4300 <? String.length s)%nat
  then Raise (Exn ValueError
                "Exceeds the limit (4300 digits) for integer string conversion")
  else Json.loads s.

Fixpoint replicate (n : nat) (c : ascii) : string :=
  match n with
  | O => EmptyString
  | S n' => String c (replicate n' c)
  end.

(** The sample backend with the limited decoder. *)
Definition limited_backend : backend :=
  Backend Sample.stub_llm Sample.stub_tool Sample.stub_prompt
          Sample.stub_resources limited_loads 25.

(** How the conversation grows with the agent invocations of a turn: not at
    all without an invocation; with one invocation, by messages that start
    with the submitted text as the user message; there is no third case. *)
Definition grows_by (added : list message) (new : list event) : Prop :=
  match agent_calls new with
  | [] => added = []
  | [text] => exists rest, added = HumanMessage text :: rest
  | _ => False
  end.

(** What every branch of the loop body guarantees. *)
Definition turn_summary (w : world) (r : py control) (w' : world) : Prop :=
  r <> Ok Break
  /\ exists added new,
       conversation w' = (conversation w ++ added)%list
       /\ trace w' = (trace w ++ new)%list
       /\ grows_by added new.

(* ================================================================== *)
(** * Part II. Properties                                              *)
(* ================================================================== *)

(** ** String facts *)

Lemma prefix_head (c : ascii) (p m : string) :
  String.prefix (String c p) m = true -> exists r, m = String c r.
Proof.
  destruct m as [|d r]; simpl; [discriminate|].
  destruct (ascii_dec c d) as [->|]; [eauto | discriminate].
Qed.

Lemma prefix_app (p s : string) : String.prefix p (p ++ s) = true.
Proof.
  induction p as [|c p IH]; simpl.
  - destruct s; reflexivity.
  - destruct (ascii_dec c c); [exact IH | congruence].
Qed.

Lemma mem_app (c : ascii) (a b : string) :
  Str.mem c (a ++ b) = Str.mem c a || Str.mem c b.
Proof.
  induction a as [|d a IH]; simpl; [reflexivity|].
  rewrite IH. apply orb_assoc.
Qed.

Lemma partition_app (sep s a b : string) :
  Str.partition sep s = Some (a, b) -> s = a ++ sep ++ b.
Proof.
  revert a b. induction s as [|c s IH]; intros a b; simpl.
  - destruct sep; [|discriminate]. intros [= <- <-]. reflexivity.
  - destruct sep as [|d sep].
    + intros [= <- <-]. reflexivity.
    + destruct (ascii_dec d c) as [->|].
      * destruct (String.prefix sep s) eqn:Hp.
        -- intros [= <- <-]. simpl. f_equal.
           clear IH. revert s Hp. induction sep as [|e sep IHs]; intros s Hp.
           ++ reflexivity.
           ++ destruct s as [|f s]; simpl in Hp; [discriminate|].
              destruct (ascii_dec e f) as [->|]; [|discriminate].
              simpl. f_equal. apply IHs, Hp.
        -- destruct (Str.partition (String c sep) s) as [[a' b']|];
             [|discriminate].
           intros [= <- <-]. simpl. f_equal. apply IH. reflexivity.
      * destruct (Str.partition (String d sep) s) as [[a' b']|];
          [|discriminate].
        intros [= <- <-]. simpl. f_equal. apply IH. reflexivity.
Qed.

(** Cutting around a one-character separator: the first part is free of
    it. *)
Lemma partition_char_first (c : ascii) (s a b : string) :
  Str.partition (String c "") s = Some (a, b) -> Str.mem c a = false.
Proof.
  revert a b. induction s as [|d s IH]; intros a b; simpl; [discriminate|].
  destruct (ascii_dec c d) as [->|Hne].
  - destruct s; intros [= <- <-]; reflexivity.
  - destruct (Str.partition (String c "") s) as [[a' b']|]; [|discriminate].
    intros [= <- <-]. simpl.
    rewrite (IH a' b' eq_refl), orb_false_r.
    apply Ascii.eqb_neq. exact Hne.
Qed.

Lemma partition_char_none (c : ascii) (s : string) :
  Str.partition (String c "") s = None <-> Str.mem c s = false.
Proof.
  induction s as [|d s IH]; simpl; [tauto|].
  destruct (ascii_dec c d) as [->|Hne].
  - rewrite Ascii.eqb_refl. destruct s; simpl; split; discriminate.
  - apply Ascii.eqb_neq in Hne. rewrite Hne. simpl.
    destruct (Str.partition (String c "") s) as [[a' b']|].
    + split; [discriminate|]. intros H. apply IH in H. discriminate.
    + split; [|reflexivity]. intros _. apply IH. reflexivity.
Qed.

(** [find] and [partition] agree on where the separator first occurs. *)
Lemma find_partition (sep s : string) :
  match Str.partition sep s with
  | Some (a, b) =>
      Str.find s sep = Z.of_nat (String.length a)
      /\ Str.take (String.length a) s = a
      /\ Str.drop (String.length a + String.length sep) s = b
  | None => Str.find s sep = (-1)%Z
  end.
Proof.
  induction s as [|c s IH].
  - simpl. destruct sep; simpl; auto.
  - cbn [Str.partition Str.find].
    destruct (String.prefix sep (String c s)) eqn:Hp.
    + simpl. auto.
    + destruct (Str.partition sep s) as [[a b]|].
      * destruct IH as (Hf & Ht & Hd). rewrite Hf.
        destruct (Z.ltb_spec (Z.of_nat (String.length a)) 0); [lia|].
        cbn [String.length Str.take Str.drop Nat.add].
        rewrite Ht, Hd. repeat split. lia.
      * rewrite IH. reflexivity.
Qed.

Lemma length_app (a b : string) :
  String.length (a ++ b) = String.length a + String.length b.
Proof. induction a; simpl; auto. Qed.

Lemma append_assoc (a b c : string) : (a ++ b) ++ c = a ++ b ++ c.
Proof. induction a as [|d a IH]; simpl; [reflexivity | f_equal; exact IH]. Qed.

Lemma take_app (a b : string) : Str.take (String.length a) (a ++ b) = a.
Proof. induction a; simpl; [destruct b; reflexivity | congruence]. Qed.

Lemma drop_app (a b : string) : Str.drop (String.length a) (a ++ b) = b.
Proof. induction a; simpl; auto. Qed.

Lemma slice_to_at (a b : string) :
  Str.slice_to (a ++ b) (Z.of_nat (String.length a)) = a.
Proof.
  unfold Str.slice_to, Str.clamp. rewrite length_app.
  destruct (Z.ltb_spec (Z.of_nat (String.length a)) 0); [lia|].
  rewrite Z.min_l by lia. rewrite Nat2Z.id. apply take_app.
Qed.

Lemma slice_from_at (a b : string) :
  Str.slice_from (a ++ b) (Z.of_nat (String.length a)) = b.
Proof.
  unfold Str.slice_from, Str.clamp. rewrite length_app.
  destruct (Z.ltb_spec (Z.of_nat (String.length a)) 0); [lia|].
  rewrite Z.min_l by lia. rewrite Nat2Z.id. apply drop_app.
Qed.

(** Stripping yields a part of the text. *)
Lemma mem_lstrip_by (p : ascii -> bool) (c : ascii) (s : string) :
  Str.mem c s = false -> Str.mem c (Str.lstrip_by p s) = false.
Proof.
  induction s as [|d s IH]; simpl; [auto|].
  intros H. apply orb_false_elim in H as [Hd Hs].
  destruct (p d); [auto|]. simpl. rewrite Hd, Hs. reflexivity.
Qed.

Lemma mem_rstrip_by (p : ascii -> bool) (c : ascii) (s : string) :
  Str.mem c s = false -> Str.mem c (Str.rstrip_by p s) = false.
Proof.
  induction s as [|d s IH]; simpl; [auto|].
  intros H. apply orb_false_elim in H as [Hd Hs].
  specialize (IH Hs).
  destruct (Str.rstrip_by p s) as [|e r].
  - destruct (p d); simpl; [reflexivity|]. rewrite Hd. reflexivity.
  - cbn [Str.mem]. rewrite Hd. exact IH.
Qed.

Lemma mem_strip (c : ascii) (s : string) :
  Str.mem c s = false -> Str.mem c (Str.strip s) = false.
Proof. intros H. apply mem_rstrip_by, mem_lstrip_by, H. Qed.

Lemma partition_char_intro (c : ascii) (a b : string) :
  Str.mem c a = false ->
  Str.partition (String c "") (a ++ String c b) = Some (a, b).
Proof.
  induction a as [|d a IH]; simpl.
  - intros _. destruct (ascii_dec c c); [|congruence].
    destruct b; reflexivity.
  - intros H. apply orb_false_elim in H as [Hd Ha].
    destruct (ascii_dec c d) as [->|].
    + rewrite Ascii.eqb_refl in Hd. discriminate.
    + rewrite (IH Ha). reflexivity.
Qed.

Lemma rstrip_by_idem (p : ascii -> bool) (s : string) :
  Str.rstrip_by p (Str.rstrip_by p s) = Str.rstrip_by p s.
Proof.
  induction s as [|c s IH]; simpl; [reflexivity|].
  destruct (Str.rstrip_by p s) as [|e r] eqn:E.
  - destruct (p c) eqn:Hc; simpl; [reflexivity|]. rewrite Hc. reflexivity.
  - cbn [Str.rstrip_by] in *. rewrite IH. reflexivity.
Qed.

Lemma lstrip_by_head (p : ascii -> bool) (s : string) :
  match Str.lstrip_by p s with
  | EmptyString => True
  | String c _ => p c = false
  end.
Proof.
  induction s as [|c s IH]; simpl; [exact I|].
  destruct (p c) eqn:Hc; [exact IH | exact Hc].
Qed.

Lemma strip_idem (s : string) : Str.strip (Str.strip s) = Str.strip s.
Proof.
  unfold Str.strip.
  pose proof (lstrip_by_head Str.isspace s) as Hh.
  destruct (Str.lstrip_by Str.isspace s) as [|c t]; [reflexivity|].
  assert (Hl : Str.lstrip_by Str.isspace (Str.rstrip_by Str.isspace (String c t))
               = Str.rstrip_by Str.isspace (String c t)).
  { cbn [Str.rstrip_by].
    destruct (Str.rstrip_by Str.isspace t); rewrite ?Hh; simpl;
      rewrite Hh; reflexivity. }
  rewrite Hl. apply rstrip_by_idem.
Qed.

(** ** Command classifier *)

Example classify_use_resource_query :
  extract_meta_command "@use_resource:foo bar baz"
  = Ok (Some "use_resource", VPair "foo" "bar baz").
Proof. reflexivity. Qed.

Example classify_use_resource_bare :
  extract_meta_command "@use_resource:foo"
  = Ok (Some "use_resource", VPair "foo" "").
Proof. reflexivity. Qed.

Lemma extract_resource_eq (s : string) :
  extract_meta_command ("@resource:" ++ s)
  = Ok (Some "resource",
        VStr (Str.strip_chars (String Str.dquote "") (Str.strip s))).
Proof. destruct s; reflexivity. Qed.

Lemma extract_use_resource_eq (r : string) :
  extract_meta_command ("@use_resource:" ++ r)
  = let parts := Str.strip r in
    let space_index := Str.find parts " " in
    if negb (space_index =? -1)%Z then
      Ok (Some "use_resource",
          VPair (Str.strip (Str.slice_to parts space_index))
                (Str.strip (Str.slice_from parts (space_index + 1))))
    else Ok (Some "use_resource", VPair (Str.strip parts) "").
Proof. destruct r; reflexivity. Qed.

(** A line that is classified as a directive starts with the at sign. *)
Lemma extract_directive_head (message c : string) (v : meta_value) :
  extract_meta_command message = Ok (Some c, v) ->
  exists r, message = String "@" r.
Proof.
  unfold extract_meta_command, Str.startswith.
  destruct (String.prefix "@resource:" message) eqn:H1;
    [intros _; exact (prefix_head _ _ _ H1)|].
  destruct (String.prefix "@prompt:" message) eqn:H2;
    [intros _; exact (prefix_head _ _ _ H2)|].
  destruct (String.prefix "@use_resource:" message) eqn:H3;
    [intros _; exact (prefix_head _ _ _ H3)|].
  discriminate.
Qed.

Lemma directive_not_exit (r : string) :
  String.eqb (Str.lower (String "@" r)) "exit"
  || String.eqb (Str.lower (String "@" r)) "quit" = false.
Proof. reflexivity. Qed.

Lemma lstrip_by_split (p : ascii -> bool) (s : string) :
  exists pre, s = pre ++ Str.lstrip_by p s /\ all_chars p pre = true.
Proof.
  induction s as [|c s (pre & E & A)]; simpl.
  - exists EmptyString. auto.
  - destruct (p c) eqn:Hc.
    + exists (String c pre). simpl. rewrite Hc, A.
      split; [congruence | reflexivity].
    + exists EmptyString. auto.
Qed.

Lemma rstrip_by_split (p : ascii -> bool) (s : string) :
  exists suf, s = Str.rstrip_by p s ++ suf /\ all_chars p suf = true.
Proof.
  induction s as [|c s (suf & E & A)]; simpl.
  - exists EmptyString. auto.
  - destruct (Str.rstrip_by p s) as [|e r].
    + simpl in E. subst suf. destruct (p c) eqn:Hc.
      * exists (String c s). simpl. rewrite Hc, A. auto.
      * exists s. auto.
    + exists suf. split; [|exact A]. simpl. f_equal. exact E.
Qed.

Lemma rstrip_by_last (p : ascii -> bool) (s : string) (c : ascii) :
  last_char (Str.rstrip_by p s) = Some c -> p c = false.
Proof.
  induction s as [|d s IH]; simpl; [discriminate|].
  destruct (Str.rstrip_by p s) as [|e r].
  - destruct (p d) eqn:Hd; simpl; [discriminate|]. congruence.
  - exact IH.
Qed.

Lemma rstrip_by_first (p : ascii -> bool) (s : string) (c : ascii) :
  (forall d, first_char s = Some d -> p d = false) ->
  first_char (Str.rstrip_by p s) = Some c -> p c = false.
Proof.
  destruct s as [|d s]; simpl; [discriminate|].
  intros H. specialize (H d eq_refl).
  destruct (Str.rstrip_by p s); rewrite ?H; simpl; congruence.
Qed.

Lemma lstrip_by_first (p : ascii -> bool) (s : string) (c : ascii) :
  first_char (Str.lstrip_by p s) = Some c -> p c = false.
Proof.
  pose proof (lstrip_by_head p s) as H.
  destruct (Str.lstrip_by p s); simpl; congruence.
Qed.

(** Stripping on both sides: the text is what was removed on the left, the
    result, and what was removed on the right; the result cannot be stripped
    further. *)
Lemma strip_by_spec (p : ascii -> bool) (s : string) :
  let t := Str.rstrip_by p (Str.lstrip_by p s) in
  bare p t
  /\ exists pre suf,
       s = pre ++ t ++ suf
       /\ all_chars p pre = true /\ all_chars p suf = true.
Proof.
  intros t. split.
  - split; intros c Hc.
    + eapply rstrip_by_first; [|exact Hc].
      intros d. apply lstrip_by_first.
    + eapply rstrip_by_last. exact Hc.
  - destruct (lstrip_by_split p s) as (pre & E1 & A1).
    destruct (rstrip_by_split p (Str.lstrip_by p s)) as (suf & E2 & A2).
    exists pre, suf. fold t in E2. rewrite <- E2. auto.
Qed.

(** C9, as stated, fails: the payload is not always trimmed.  The
    whitespace around the remainder is removed before the quotes are, and
    nothing is trimmed after that, so whitespace that the quotes enclose
    stays: for the remainder made of a quote, a space, [x], a space and a
    quote, removing the quotes and the surrounding whitespace gives [x],
    the classifier gives [x] between two spaces. *)
Lemma resource_payload_not_trimmed :
  let s := Str.q "' x '" in
  extract_meta_command ("@resource:" ++ s) = Ok (Some "resource", VStr " x ")
  /\ first_char " x " = Some " "%char
  /\ Str.isspace " " = true
  /\ ~ bare Str.isspace " x "
  /\ Str.strip (Str.strip_chars (String Str.dquote "") s) = "x".
Proof.
  repeat split.
  intros [Hfirst _]. specialize (Hfirst " "%char eq_refl). discriminate.
Qed.

(** C9, amended.  For every line that begins with the load-resource prefix
    [@resource:], the classifier answers [resource] and the payload is the
    remainder [s] of the line with the surrounding whitespace removed first
    and the surrounding double quotes removed after that, once each:
    [s] is whitespace, quotes, the payload, quotes, whitespace, where the
    quoted part neither starts nor ends with whitespace and the payload
    neither starts nor ends with a quote.  Whitespace that the quotes enclose
    stays in the payload. *)
Theorem resource_payload_trimmed_then_unquoted (s : string) :
  exists payload,
    extract_meta_command ("@resource:" ++ s)
    = Ok (Some "resource", VStr payload)
    /\ payload = Str.strip_chars (String Str.dquote "") (Str.strip s)
    /\ bare is_dquote payload
    /\ exists ws1 q1 q2 ws2,
         s = ws1 ++ (q1 ++ payload ++ q2) ++ ws2
         /\ bare Str.isspace (q1 ++ payload ++ q2)
         /\ all_chars Str.isspace ws1 = true
         /\ all_chars Str.isspace ws2 = true
         /\ all_chars is_dquote q1 = true
         /\ all_chars is_dquote q2 = true.
Proof.
  eexists. split; [apply extract_resource_eq|]. split; [reflexivity|].
  destruct (strip_by_spec Str.isspace s) as (Hb & ws1 & ws2 & Es & A1 & A2).
  destruct (strip_by_spec is_dquote (Str.strip s))
    as (Hq & q1 & q2 & Eq & B1 & B2).
  split; [exact Hq|].
  exists ws1, q1, q2, ws2.
  unfold Str.strip_chars. fold is_dquote.
  change (Str.rstrip_by Str.isspace (Str.lstrip_by Str.isspace s))
    with (Str.strip s) in *.
  rewrite <- Eq. auto 10.
Qed.

(** C7, as stated, fails when the first whitespace of the remainder is not a
    space character: a tab separates [foo] from [bar], the specification's
    split gives the URI [foo] and the query [bar], the classifier gives the
    whole remainder as the URI and an empty query. *)
Lemma use_resource_tab_is_not_split :
  let remainder := "foo" ++ String Str.tab "bar" in
  Str.isspace Str.tab = true
  /\ spec_split_first_whitespace remainder = ("foo", "bar")
  /\ extract_meta_command ("@use_resource:" ++ remainder)
     = Ok (Some "use_resource", VPair remainder "")
  /\ extract_meta_command ("@use_resource:" ++ remainder)
     <> Ok (Some "use_resource",
            VPair (fst (spec_split_first_whitespace remainder))
                  (snd (spec_split_first_whitespace remainder))).
Proof. repeat split; try reflexivity. discriminate. Qed.

(** C7, amended.  Classifying a [use_resource] line splits the trimmed
    remainder at its first space character: the text before it, trimmed, is
    the URI and the text after it, trimmed, is the query; when the trimmed
    remainder holds no space character the URI is the trimmed remainder and
    the query is empty.  In particular [@use_resource:foo bar baz] gives
    [("foo", "bar baz")] and [@use_resource:foo] gives [("foo", "")]. *)
Theorem use_resource_splits_at_first_space :
  (forall r uri rest : string,
      Str.mem " " uri = false ->
      Str.strip r = uri ++ " " ++ rest ->
      extract_meta_command ("@use_resource:" ++ r)
      = Ok (Some "use_resource", VPair (Str.strip uri) (Str.strip rest)))
  /\ (forall r : string,
         Str.mem " " (Str.strip r) = false ->
         extract_meta_command ("@use_resource:" ++ r)
         = Ok (Some "use_resource", VPair (Str.strip r) ""))
  /\ extract_meta_command "@use_resource:foo bar baz"
     = Ok (Some "use_resource", VPair "foo" "bar baz")
  /\ extract_meta_command "@use_resource:foo"
     = Ok (Some "use_resource", VPair "foo" "").
Proof.
  split; [|split; [|split; reflexivity]].
  - intros r uri rest Hu Hr.
    rewrite extract_use_resource_eq. cbv zeta.
    pose proof (find_partition " " (Str.strip r)) as Hf.
    rewrite Hr in Hf |- *.
    change (uri ++ " " ++ rest) with (uri ++ String " " rest) in Hf.
    rewrite (partition_char_intro " " uri rest Hu) in Hf.
    destruct Hf as (Hf & _ & _).
    change (uri ++ String " " rest) with (uri ++ " " ++ rest) in Hf.
    rewrite Hf.
    destruct (Z.eqb_spec (Z.of_nat (String.length uri)) (-1)); [lia|].
    cbn [negb]. rewrite slice_to_at.
    rewrite <- (append_assoc uri " " rest).
    replace (Z.of_nat (String.length uri) + 1)%Z
      with (Z.of_nat (String.length (uri ++ " ")))
      by (rewrite length_app; simpl; lia).
    rewrite slice_from_at. reflexivity.
  - intros r Hm.
    rewrite extract_use_resource_eq. cbv zeta.
    pose proof (find_partition " " (Str.strip r)) as Hf.
    apply partition_char_none in Hm. rewrite Hm in Hf. rewrite Hf.
    cbn. rewrite strip_idem. reflexivity.
Qed.

Lemma use_resource_splits_at_first_space_witness :
  extract_meta_command ("@use_resource:" ++ "  vector://list   what is there? ")
  = Ok (Some "use_resource", VPair "vector://list" "what is there?")
  /\ extract_meta_command ("@use_resource:" ++ " vector://list ")
     = Ok (Some "use_resource", VPair "vector://list" "").
Proof.
  destruct use_resource_splits_at_first_space as (Hsplit & Hnone & _).
  split.
  - apply (Hsplit "  vector://list   what is there? " "vector://list"
                  "  what is there?"); reflexivity.
  - apply (Hnone " vector://list "). reflexivity.
Defined.

(** ** Agent graph *)

Lemma run_from_extends (B : backend) (limit : nat) :
  forall (n : node) (messages : list message),
  exists rest, fst (run_from B limit n messages) = (messages ++ rest)%list.
Proof.
  induction limit as [|limit IH]; intros n messages; simpl.
  - exists []. rewrite app_nil_r. reflexivity.
  - destruct n.
    + destruct (chat_node B messages) as [update|e]; simpl;
        [|exists []; rewrite app_nil_r; reflexivity].
      destruct (String.eqb _ _).
      * destruct (IH N_tool_node (add_messages messages update)) as (rest & E).
        exists (update ++ rest)%list. rewrite E. unfold add_messages.
        rewrite app_assoc. reflexivity.
      * exists update. reflexivity.
    + destruct (tool_node B messages) as [update|e]; simpl;
        [|exists []; rewrite app_nil_r; reflexivity].
      destruct (IH N_chat_node (add_messages messages update)) as (rest & E).
      exists (update ++ rest)%list. rewrite E. unfold add_messages.
      rewrite app_assoc. reflexivity.
Qed.

(** An invocation appends to the conversation, and what it appends starts
    with the submitted text as a user message. *)
Lemma ainvoke_extends (B : backend) (conv : list message) (text : string) :
  exists rest,
    fst (ainvoke B conv text) = (conv ++ HumanMessage text :: rest)%list.
Proof.
  unfold ainvoke.
  destruct (run_from_extends B (recursion_limit B) N_chat_node
              (add_messages conv [HumanMessage text])) as (rest & E).
  destruct (run_from _ _ _ _) as [messages outcome]. simpl in *.
  exists rest. rewrite E. unfold add_messages. rewrite <- app_assoc.
  reflexivity.
Qed.

(** ** Session driver *)

Lemma run_chat_spec (B : backend) (text : string) (w : world) :
  exists o,
    run_chat B text w
    = (Ok tt,
       World (loaded_resources w) (fst (ainvoke B (conversation w) text))
             (stdin w) (trace w ++ [AgentInvoked text; Printed o])).
Proof.
  unfold run_chat, try_except, bind, agent_ainvoke, print, emit.
  destruct (ainvoke B (conversation w) text) as [messages [content|e]];
    simpl; eexists; rewrite <- app_assoc; reflexivity.
Qed.

(** C6.  A line that starts with none of the three prefixes [@resource:],
    [@prompt:] and [@use_resource:] is classified as chat (the classifier
    answers [None]), and unless it is an exit word the driver submits the line
    itself to the agent: the agent is invoked once, with the line, and the
    line is the user message added to the conversation. *)
Theorem unprefixed_line_is_chat (B : backend) (message : string) (w : world) :
  Str.startswith message "@resource:" = false ->
  Str.startswith message "@prompt:" = false ->
  Str.startswith message "@use_resource:" = false ->
  extract_meta_command message = Ok (None, VNone)
  /\ (String.eqb (Str.lower message) "exit" = false ->
      String.eqb (Str.lower message) "quit" = false ->
      exists o rest,
        dispatch B message w
        = (Ok Continue,
           World (loaded_resources w)
                 (conversation w ++ HumanMessage message :: rest)
                 (stdin w)
                 (trace w ++ [AgentInvoked message; Printed o]))).
Proof.
  intros H1 H2 H3.
  assert (E : extract_meta_command message = Ok (None, VNone)).
  { unfold extract_meta_command. rewrite H1, H2, H3. reflexivity. }
  split; [exact E|].
  intros He Hq. unfold dispatch. rewrite He, Hq, E. cbn.
  destruct (run_chat_spec B message w) as (o & R).
  destruct (ainvoke_extends B (conversation w) message) as (rest & A).
  exists o, rest. unfold bind. rewrite R, A. reflexivity.
Qed.

Lemma unprefixed_line_is_chat_witness :
  extract_meta_command "@Resource:x" = Ok (None, VNone)
  /\ exists o rest,
       dispatch Sample.B "@Resource:x" (Sample.start [])
       = (Ok Continue,
          World [] ([] ++ HumanMessage "@Resource:x" :: rest) []
                ([] ++ [AgentInvoked "@Resource:x"; Printed o])).
Proof.
  destruct (unprefixed_line_is_chat Sample.B "@Resource:x" (Sample.start [])
              eq_refl eq_refl eq_refl) as (E & D).
  split; [exact E|]. apply D; reflexivity.
Defined.

(** *** One turn of the agent graph *)




(** *** The [use_resource] directive *)

Lemma inject_cached (d : Dict.t string) (query uri : string) :
  Dict.contains d uri = true ->
  exists content,
    Dict.get d uri = Some content
    /\ inject_resource_into_message d query uri
       = using_resource_text uri content query.
Proof.
  unfold inject_resource_into_message, Dict.contains.
  destruct (Dict.get d uri) as [content|]; [|discriminate].
  intros _. exists content. split; reflexivity.
Qed.

Lemma dispatch_directive (B : backend) (message c : string) (v : meta_value)
    (w : world) :
  extract_meta_command message = Ok (Some c, v) ->
  dispatch B message w
  = (if String.eqb c "use_resource" then on_use_resource B v
     else if String.eqb c "prompt" then on_prompt B v
     else if String.eqb c "resource" then on_resource B v
     else (run_chat B message ;; ret Continue)%M) w.
Proof.
  intros H. destruct (extract_directive_head _ H) as (r & ->).
  unfold dispatch. rewrite directive_not_exit.
  unfold bind at 1, lift. rewrite H. reflexivity.
Qed.

(** C8.  In a [use_resource] turn with an empty query the driver prints the
    usage hint, and with a non-empty query and a URI that is not cached it
    prints the load-it-first hint; in both cases the agent is not invoked
    and the conversation, the cache and the pending input are as before. *)
Theorem use_resource_rejected_without_agent
    (B : backend) (message uri query : string) (w : world) :
  extract_meta_command message = Ok (Some "use_resource", VPair uri query) ->
  query = "" \/ Dict.contains (loaded_resources w) uri = false ->
  exists hints,
    dispatch B message w
    = (Ok Continue,
       World (loaded_resources w) (conversation w) (stdin w)
             (trace w ++ hints))
    /\ agent_calls hints = []
    /\ hints = if Str.is_empty query
               then [Printed OutQueryMissing; Printed OutUsage]
               else [Printed (OutNotLoaded uri); Printed (OutLoadItFirst uri)].
Proof.
  intros H Hrej. rewrite (@dispatch_directive B _ _ _ w H). cbn.
  destruct query as [|c query]; cbn.
  - eexists. split; [|split; [|reflexivity]]; [|reflexivity].
    run_monad. rewrite <- app_assoc. reflexivity.
  - destruct Hrej as [Hq|Hc]; [discriminate|].
    eexists. split; [|split; [|reflexivity]]; [|reflexivity].
    run_monad. rewrite Hc. cbn. rewrite <- app_assoc. reflexivity.
Qed.

Lemma use_resource_rejected_without_agent_witness :
  exists hints,
    dispatch Sample.B "@use_resource:x summarize" (Sample.start [])
    = (Ok Continue, World [] [] [] ([] ++ hints))
    /\ agent_calls hints = []
    /\ hints = [Printed (OutNotLoaded "x"); Printed (OutLoadItFirst "x")].
Proof.
  apply (@use_resource_rejected_without_agent Sample.B
           "@use_resource:x summarize" "x" "summarize" (Sample.start [])).
  - reflexivity.
  - right. reflexivity.
Defined.

(** C10.  In a [use_resource] turn the agent is only ever invoked with the
    marker-plus-content-plus-query form built from the cached content of the
    URI, never with the not-found block; and when the query is not empty and
    the URI is cached the agent is invoked exactly once, with that text. *)
Theorem use_resource_composes_marker_form
    (B : backend) (message uri query : string) (w : world) :
  extract_meta_command message = Ok (Some "use_resource", VPair uri query) ->
  exists new,
    trace (snd (dispatch B message w)) = (trace w ++ new)%list
    /\ (forall text, In text (agent_calls new) ->
          exists content,
            Dict.get (loaded_resources w) uri = Some content
            /\ text = using_resource_text uri content query)
    /\ (query <> "" -> Dict.contains (loaded_resources w) uri = true ->
          exists content,
            Dict.get (loaded_resources w) uri = Some content
            /\ agent_calls new = [using_resource_text uri content query]).
Proof.
  intros H. rewrite (@dispatch_directive B _ _ _ w H). cbn.
  destruct query as [|c query]; cbn.
  - exists [Printed OutQueryMissing; Printed OutUsage]. run_monad.
    rewrite <- app_assoc. repeat split; [intros ? []|congruence].
  - unfold bind at 1, get_resources.
    destruct (Dict.contains (loaded_resources w) uri) eqn:Hc; cbn.
    + destruct (inject_cached (loaded_resources w) (String c query) uri Hc)
        as (content & Hg & Hi).
      rewrite Hi. unfold bind.
      destruct (run_chat_spec B (using_resource_text uri content (String c query)) w)
        as (o & R).
      rewrite R. cbn.
      exists [AgentInvoked (using_resource_text uri content (String c query));
              Printed o].
      split; [reflexivity|]. split.
      * intros text [<-|[]]. exists content. auto.
      * intros _ _. exists content. auto.
    + exists [Printed (OutNotLoaded uri); Printed (OutLoadItFirst uri)].
      run_monad. rewrite <- app_assoc.
      repeat split; [intros ? []|discriminate].
Qed.

Lemma use_resource_composes_marker_form_witness :
  exists new,
    trace (snd (dispatch Sample.B "@use_resource:x what is it?"
                  (World [("x", "hello")] [] [] [])))
    = ([] ++ new)%list
    /\ (forall text, In text (agent_calls new) ->
          exists content,
            Dict.get [("x", "hello")] "x" = Some content
            /\ text = using_resource_text "x" content "what is it?")
    /\ ("what is it?" <> "" -> Dict.contains [("x", "hello")] "x" = true ->
          exists content,
            Dict.get [("x", "hello")] "x" = Some content
            /\ agent_calls new = [using_resource_text "x" content "what is it?"]).
Proof.
  apply (@use_resource_composes_marker_form Sample.B
           "@use_resource:x what is it?" "x" "what is it?"
           (World [("x", "hello")] [] [] [])).
  reflexivity.
Defined.

(** *** The [resource] directive *)

Lemma delitem_absent (V : Type) (d : Dict.t V) (k : string) :
  Dict.contains d k = false -> Dict.delitem d k = d.
Proof.
  unfold Dict.contains.
  induction d as [|[k' v] d IH]; simpl; [reflexivity|].
  destruct (String.eqb k k'); [discriminate|].
  intros H. rewrite (IH H). reflexivity.
Qed.

Lemma get_delitem_other (V : Type) (d : Dict.t V) (k k' : string) :
  k' <> k -> Dict.get (Dict.delitem d k) k' = Dict.get d k'.
Proof.
  intros Hne. induction d as [|[k0 v] d IH]; simpl; [reflexivity|].
  destruct (String.eqb_spec k k0) as [->|].
  - destruct (String.eqb_spec k' k0); [contradiction | reflexivity].
  - simpl. rewrite IH. reflexivity.
Qed.

(** C2, as stated, fails when the URI is already cached: the old copy is
    deleted before the fetch, so after a failed fetch the cache has lost the
    entry. *)
Lemma failed_fetch_drops_cached_copy :
  let before := World [("nope", "old text")] [] [] [] in
  load_mcp_resources Sample.B "nope"
  = Raise (Exn McpError "Unknown resource: nope")
  /\ dispatch Sample.B "@resource:nope" before
     = (Ok Continue,
        World [] [] []
              [Printed (OutUpdatingResource "nope");
               ResourceRequested "nope";
               Printed (OutFailedResource
                          (Exn McpError "Unknown resource: nope"))])
  /\ loaded_resources (snd (dispatch Sample.B "@resource:nope" before))
     <> loaded_resources before.
Proof. repeat split. discriminate. Qed.

(** C2, amended.  In a [resource] turn whose backend fetch raises a
    failure, the failure is reported to the user and the conversation is
    untouched; the cache afterwards is the cache before the turn without the
    entry of that URI, which the driver deletes before it fetches: it equals
    the cache before when the URI was not cached, and every entry under
    another URI is as before. *)
Theorem resource_fetch_failure_drops_only_that_entry
    (B : backend) (message uri : string) (e : exn) (w : world) :
  extract_meta_command message = Ok (Some "resource", VStr uri) ->
  load_mcp_resources B uri = Raise e ->
  exists evs after,
    dispatch B message w
    = (Ok Continue, World after (conversation w) (stdin w) (trace w ++ evs))
    /\ In (Printed (OutFailedResource e)) evs
    /\ agent_calls evs = []
    /\ after = (if Dict.contains (loaded_resources w) uri
                then Dict.delitem (loaded_resources w) uri
                else loaded_resources w)
    /\ (Dict.contains (loaded_resources w) uri = false ->
        after = loaded_resources w)
    /\ (forall k, k <> uri ->
        Dict.get after k = Dict.get (loaded_resources w) k).
Proof.
  intros H Hf. rewrite (@dispatch_directive B _ _ _ w H). cbn.
  unfold on_resource, call_load_mcp_resources. run_monad.
  destruct (Dict.contains (loaded_resources w) uri) eqn:Hc; cbn;
    rewrite Hf; cbn.
  - exists [Printed (OutUpdatingResource uri); ResourceRequested uri;
            Printed (OutFailedResource e)].
    eexists. split; [rewrite <- !app_assoc; reflexivity|].
    split; [simpl; auto|]. split; [reflexivity|]. split; [reflexivity|].
    split; [discriminate|].
    intros k Hk. apply get_delitem_other. exact Hk.
  - exists [ResourceRequested uri; Printed (OutFailedResource e)].
    eexists. split; [rewrite <- !app_assoc; reflexivity|].
    split; [simpl; auto|]. repeat split.
Qed.

Lemma resource_fetch_failure_drops_only_that_entry_witness :
  exists evs after,
    dispatch Sample.B "@resource:nope"
             (World [("vector://list", "DB Name: papers"); ("nope", "old")]
                    [] [] [])
    = (Ok Continue, World after [] [] ([] ++ evs))
    /\ In (Printed (OutFailedResource
                      (Exn McpError "Unknown resource: nope"))) evs
    /\ after = [("vector://list", "DB Name: papers")].
Proof.
  destruct (@resource_fetch_failure_drops_only_that_entry Sample.B
              "@resource:nope" "nope"
              (Exn McpError "Unknown resource: nope")
              (World [("vector://list", "DB Name: papers"); ("nope", "old")]
                     [] [] [])
              eq_refl eq_refl)
    as (evs & after & D & Hin & _ & Ha & _).
  exists evs, after. repeat split; assumption.
Defined.

(** *** The [prompt] directive *)

Lemma resolutions_app (a b : list event) :
  resolutions (a ++ b) = (resolutions a ++ resolutions b)%list.
Proof. apply flat_map_app. Qed.

Lemma run_research_spec (B : backend) (text : string) (w : world) :
  exists outs,
    run_research B text w
    = (Ok tt,
       World (loaded_resources w) (fst (ainvoke B (conversation w) text))
             (stdin w)
             (trace w ++ AgentInvoked text :: map Printed outs)).
Proof.
  unfold run_research, try_except, bind, agent_ainvoke, print, emit.
  destruct (ainvoke B (conversation w) text) as [messages [content|e]]; cbn.
  - exists [OutResearchBegin; OutAI content; OutResearchEnd].
    rewrite <- !app_assoc. reflexivity.
  - exists [OutAgentError e]. rewrite <- !app_assoc. reflexivity.
Qed.





(** ** Argument parser *)

Lemma contains_char (c : ascii) (s : string) :
  Str.contains (String c "") s = Str.mem c s.
Proof.
  unfold Str.contains.
  pose proof (find_partition (String c "") s) as Hf.
  destruct (Str.partition (String c "") s) as [[a b]|] eqn:Hp.
  - destruct Hf as (Hf & _). rewrite Hf.
    apply partition_app in Hp. subst s.
    rewrite mem_app. simpl. rewrite Ascii.eqb_refl, orb_true_r.
    apply Z.leb_le. lia.
  - rewrite Hf. apply partition_char_none in Hp. rewrite Hp. reflexivity.
Qed.

(** A segment with a colon always unpacks into a key and a value. *)
Lemma split1_colon (s : string) :
  Str.contains ":" s = true ->
  exists key val, map Str.strip (Str.split1 s ":") = [key; val].
Proof.
  rewrite contains_char. intros Hm. unfold Str.split1.
  destruct (Str.partition ":" s) as [[a b]|] eqn:Hp.
  - simpl. eauto.
  - apply partition_char_none in Hp. congruence.
Qed.

(** The loop of the second strategy never raises. *)
Lemma parse_pairs_never_raises (pairs : list string) :
  forall args, snd (parse_pairs pairs args) = None.
Proof.
  induction pairs as [|p pairs IH]; intros args; simpl; [reflexivity|].
  destruct (Str.contains ":" p) eqn:Hc; [|apply IH].
  destruct (split1_colon p Hc) as (key & val & E). rewrite E. apply IH.
Qed.

Lemma parse_pairs_without_colon (pairs : list string) :
  Forall (fun p => Str.mem ":" p = false) pairs ->
  forall args, parse_pairs pairs args = (args, None).
Proof.
  induction 1 as [|p pairs Hp _ IH]; intros args; simpl; [reflexivity|].
  change ":" with (String ":" "") at 1.
  rewrite contains_char, Hp. apply IH.
Qed.

Lemma split_fuel_mem (c : ascii) (sep : string) (fuel : nat) :
  forall s, Str.mem c s = false ->
            Forall (fun p => Str.mem c p = false) (Str.split_fuel fuel s sep).
Proof.
  induction fuel as [|fuel IH]; intros s Hs; simpl.
  - constructor; [exact Hs | constructor].
  - destruct (Str.partition sep s) as [[a b]|] eqn:Hp.
    + apply partition_app in Hp. subst s.
      rewrite !mem_app in Hs.
      apply orb_false_elim in Hs as [Ha Hs].
      apply orb_false_elim in Hs as [_ Hb].
      constructor; [exact Ha | apply IH, Hb].
    + constructor; [exact Hs | constructor].
Qed.

(** When the decoder rejects the text, the parser answers with the mapping of
    the second strategy. *)
Lemma parse_arguments_fallback
    (json_loads : string -> py pyvalue) (s : string) (e : exn) :
  json_loads (Str.strip s) = Raise e ->
  exn_cls e = JSONDecodeError ->
  parse_arguments json_loads s
  = Ok (PyDict (fst (parse_pairs (Str.split (Str.strip s) ",")
                                 (Dict.empty _)))).
Proof.
  intros Hj Hc. unfold parse_arguments. rewrite Hj, Hc. cbn.
  pose proof (parse_pairs_never_raises (Str.split (Str.strip s) ",")
                (Dict.empty _)) as Hn.
  destruct (parse_pairs _ _) as [args o]. simpl in Hn. subst o. reflexivity.
Qed.

Lemma parse_arguments_decoded
    (json_loads : string -> py pyvalue) (s : string) (v : pyvalue) :
  json_loads (Str.strip s) = Ok v ->
  parse_arguments json_loads s = Ok v.
Proof. intros H. unfold parse_arguments. rewrite H. reflexivity. Qed.

(** C4.  The structured-decoding step hands back whatever the decoder
    produced, of whatever kind: the parser returns the decoded value also
    when it is not a key-value mapping. *)
Theorem parse_arguments_returns_decoded_value
    (json_loads : string -> py pyvalue) (s : string) (v : pyvalue) :
  json_loads (Str.strip s) = Ok v ->
  parse_arguments json_loads s = Ok v.
Proof. apply parse_arguments_decoded. Qed.

Lemma parse_arguments_returns_decoded_value_witness :
  parse_arguments Json.loads "123" = Ok (PyInt 123)
  /\ is_dict (PyInt 123) = false.
Proof.
  split; [|reflexivity].
  apply (@parse_arguments_returns_decoded_value Json.loads "123" (PyInt 123)).
  reflexivity.
Defined.

(** C5, as stated, fails: the parser's answer for the empty object is the
    answer for a text it cannot parse, so no caller can tell them apart. *)
Lemma empty_object_same_as_unparseable :
  parse_arguments Json.loads "{}" = Ok (PyDict [])
  /\ parse_arguments Json.loads "nonsense" = Ok (PyDict [])
  /\ forall (A : Type) (caller : py pyvalue -> A),
       caller (parse_arguments Json.loads "{}")
       = caller (parse_arguments Json.loads "nonsense").
Proof. repeat split. Qed.

(** C5, amended.  The empty mapping does not tell a parse failure from a
    successfully parsed empty object: for a line that decodes to an empty
    object and for a line that the decoder rejects and that holds no colon,
    the parser returns the same empty mapping, and the caller treats both as a
    parse failure, reporting it and ending the turn without resolving the
    prompt again. *)
Theorem empty_mapping_is_reported_as_parse_failure
    (B : backend) (name line : string) (rest : list string) (e0 : exn)
    (w : world) :
  stdin w = line :: rest ->
  json_loads B (Str.strip line) = Ok (PyDict [])
  \/ (exists e, json_loads B (Str.strip line) = Raise e
                /\ exn_cls e = JSONDecodeError
                /\ Str.mem ":" line = false) ->
  parse_arguments (json_loads B) line = Ok (PyDict [])
  /\ on_prompt_failure B name e0 w
     = (Ok tt,
        World (loaded_resources w) (conversation w) rest
              (trace w ++ argument_help name e0
               ++ [LineRead ArgumentsPrompt line; Printed OutParseFailed])).
Proof.
  intros Hin Hline.
  assert (Hp : parse_arguments (json_loads B) line = Ok (PyDict [])).
  { destruct Hline as [Hj|(e & Hj & Hc & Hm)].
    - apply parse_arguments_decoded, Hj.
    - rewrite (parse_arguments_fallback _ _ Hj Hc).
      rewrite parse_pairs_without_colon; [reflexivity|].
      apply split_fuel_mem, mem_strip, Hm. }
  split; [exact Hp|].
  assert (Hp' : parse_arguments (json_loads B) (Str.strip line)
                = Ok (PyDict [])).
  { unfold parse_arguments in *. rewrite strip_idem. exact Hp. }
  unfold on_prompt_failure. run_monad. unfold input. cbn. rewrite Hin.
  rewrite Hp'. cbn. rewrite <- !app_assoc. reflexivity.
Qed.

Lemma empty_mapping_is_reported_as_parse_failure_witness :
  (parse_arguments Json.loads "{}" = Ok (PyDict [])
   /\ on_prompt_failure Sample.B "research_prompt" Sample.missing_arguments
        (Sample.start ["{}"])
      = (Ok tt,
         World [] [] []
               ([] ++ argument_help "research_prompt" Sample.missing_arguments
                ++ [LineRead ArgumentsPrompt "{}"; Printed OutParseFailed])))
  /\ (parse_arguments Json.loads "nonsense" = Ok (PyDict [])
      /\ on_prompt_failure Sample.B "research_prompt" Sample.missing_arguments
           (Sample.start ["nonsense"])
         = (Ok tt,
            World [] [] []
                  ([] ++ argument_help "research_prompt"
                                       Sample.missing_arguments
                   ++ [LineRead ArgumentsPrompt "nonsense";
                       Printed OutParseFailed]))).
Proof.
  split.
  - apply (@empty_mapping_is_reported_as_parse_failure Sample.B
             "research_prompt" "{}" [] Sample.missing_arguments
             (Sample.start ["{}"])); [reflexivity|].
    left. reflexivity.
  - apply (@empty_mapping_is_reported_as_parse_failure Sample.B
             "research_prompt" "nonsense" [] Sample.missing_arguments
             (Sample.start ["nonsense"])); [reflexivity|].
    right. eexists. repeat split.
Defined.

(** ** The worked examples of the specification *)

Example parse_json_object :
  parse_arguments Json.loads (Str.q "{'a':'1','b':'2'}")
  = Ok (PyDict [("a", PyStr "1"); ("b", PyStr "2")]).
Proof. reflexivity. Qed.

Example parse_comma_pairs :
  parse_arguments Json.loads "a:1, b:2"
  = Ok (PyDict [("a", PyStr "1"); ("b", PyStr "2")]).
Proof. reflexivity. Qed.

Example parse_single_pair :
  parse_arguments Json.loads "a:1" = Ok (PyDict [("a", PyStr "1")]).
Proof. reflexivity. Qed.

Example parse_nonsense :
  parse_arguments Json.loads "nonsense" = Ok (PyDict []).
Proof. reflexivity. Qed.

(** Segments without a colon are dropped, and a value keeps its own
    colons. *)
Example parse_drops_bare_segments :
  parse_arguments Json.loads "url: http://x, junk, depth:2"
  = Ok (PyDict [("url", PyStr "http://x"); ("depth", PyStr "2")]).
Proof. reflexivity. Qed.

Example cache_last_write_wins :
  Dict.get (Dict.setitem (Dict.setitem (Dict.empty string) "x" "hello")
                         "x" "world") "x" = Some "world"
  /\ Dict.get (Dict.empty string) "y" = None.
Proof. split; reflexivity. Qed.

Example compose_cached :
  inject_resource_into_message [("x", "hello")] "what is it?" "x"
  = "[USING RESOURCE: x]" ++ Str.nl ++ "hello" ++ Str.nl ++ Str.nl
    ++ "User query: what is it?".
Proof. reflexivity. Qed.

Example compose_missing :
  inject_resource_into_message [("y", "hello")] "what is it?" "x"
  = "[ERROR: Resource 'x' not found. Available resources: ['y']]"
    ++ Str.nl ++ Str.nl ++ "User query: what is it?".
Proof. reflexivity. Qed.

(** A resource payload keeps the whitespace that its quotes enclose. *)
Example resource_payload_inner_blanks :
  extract_meta_command (Str.q "@resource: ' vector://list ' ")
  = Ok (Some "resource", VStr " vector://list ").
Proof. reflexivity. Qed.

(** Prefixes are matched exactly. *)
Example classify_near_misses :
  extract_meta_command "@resource" = Ok (None, VNone)
  /\ extract_meta_command "@PROMPT:x" = Ok (None, VNone)
  /\ extract_meta_command " @prompt:x" = Ok (None, VNone).
Proof. repeat split. Qed.

(** A session: using a resource before it is loaded is rejected; once it is
    loaded the same line reaches the agent. *)
Example session_load_then_use :
  let w := snd (main_loop Sample.B 4
                  (Sample.start ["@use_resource:vector://list summarize";
                                 "@resource:vector://list";
                                 "@use_resource:vector://list summarize";
                                 "quit"])) in
  agent_calls (trace w)
  = [using_resource_text "vector://list" "DB Name: papers" "summarize"]
  /\ loaded_resources w = [("vector://list", "DB Name: papers")]
  /\ length (conversation w) = 4
  /\ stdin w = [].
Proof. repeat split. Qed.

(* ================================================================== *)
(** * Part III. Further properties of the code                         *)
(* ================================================================== *)

(** ** Classifier *)

Lemma prefix_split (p m : string) :
  String.prefix p m = true -> exists r, m = p ++ r.
Proof.
  revert m. induction p as [|c p IH]; intros m; simpl.
  - intros _. exists m. reflexivity.
  - destruct m as [|d m]; simpl; [discriminate|].
    destruct (ascii_dec c d) as [->|]; [|discriminate].
    intros H. destruct (IH m H) as (r & ->). exists r. reflexivity.
Qed.

Lemma extract_prompt_eq (s : string) :
  extract_meta_command ("@prompt:" ++ s)
  = Ok (Some "prompt",
        VStr (Str.strip_chars (String Str.dquote "") (Str.strip s))).
Proof. destruct s; reflexivity. Qed.

Lemma extract_use_resource_shape (r : string) :
  exists uri query,
    extract_meta_command ("@use_resource:" ++ r)
    = Ok (Some "use_resource", VPair uri query).
Proof.
  rewrite extract_use_resource_eq. cbv zeta.
  destruct (negb _); eauto.
Qed.

(** X1.  The classifier never raises: the subscript [[1]] after
    [split(":", 1)] is only evaluated on a line that holds a colon.  It
    answers [resource], [prompt] or [use_resource] exactly for the lines that
    start with the corresponding prefix and [None] for all others, with a
    string payload for the first two, a pair for the third and [None]
    otherwise. *)
Theorem classifier_never_raises (message : string) :
  exists c v,
    extract_meta_command message = Ok (c, v)
    /\ c = (if Str.startswith message "@resource:" then Some "resource"
            else if Str.startswith message "@prompt:" then Some "prompt"
            else if Str.startswith message "@use_resource:"
                 then Some "use_resource"
            else None)
    /\ match v with
       | VStr _ => c = Some "resource" \/ c = Some "prompt"
       | VPair _ _ => c = Some "use_resource"
       | VNone => c = None
       end.
Proof.
  unfold Str.startswith.
  destruct (String.prefix "@resource:" message) eqn:H1.
  { destruct (prefix_split _ _ H1) as (r & ->).
    rewrite extract_resource_eq. eexists _, _. split; [reflexivity|].
    split; [reflexivity|]. cbn. left. reflexivity. }
  destruct (String.prefix "@prompt:" message) eqn:H2.
  { destruct (prefix_split _ _ H2) as (r & ->).
    rewrite extract_prompt_eq. eexists _, _. split; [reflexivity|].
    split; [reflexivity|]. cbn. right. reflexivity. }
  destruct (String.prefix "@use_resource:" message) eqn:H3.
  { destruct (prefix_split _ _ H3) as (r & ->).
    destruct (extract_use_resource_shape r) as (uri & query & E).
    rewrite E. eexists _, _. split; [reflexivity|].
    split; [reflexivity|]. cbn. reflexivity. }
  exists None, VNone. unfold extract_meta_command, Str.startswith.
  rewrite H1, H2, H3. repeat split.
Qed.

(** X2.  The payload of a [@prompt:] line is treated like that of a
    [@resource:] line: the remainder with the surrounding whitespace removed
    and then the surrounding double quotes removed, so a quoted prompt name
    loses its quotes. *)
Theorem prompt_payload_unquoted_trimmed (s : string) :
  exists payload,
    extract_meta_command ("@prompt:" ++ s) = Ok (Some "prompt", VStr payload)
    /\ bare is_dquote payload
    /\ exists ws1 q1 q2 ws2,
         s = ws1 ++ (q1 ++ payload ++ q2) ++ ws2
         /\ bare Str.isspace (q1 ++ payload ++ q2)
         /\ all_chars Str.isspace ws1 = true
         /\ all_chars Str.isspace ws2 = true
         /\ all_chars is_dquote q1 = true
         /\ all_chars is_dquote q2 = true.
Proof.
  eexists. split; [apply extract_prompt_eq|].
  destruct (strip_by_spec Str.isspace s) as (Hb & ws1 & ws2 & Es & A1 & A2).
  destruct (strip_by_spec is_dquote (Str.strip s))
    as (Hq & q1 & q2 & Eq & B1 & B2).
  split; [exact Hq|].
  exists ws1, q1, q2, ws2.
  unfold Str.strip_chars. fold is_dquote.
  change (Str.rstrip_by Str.isspace (Str.lstrip_by Str.isspace s))
    with (Str.strip s) in *.
  rewrite <- Eq. auto 10.
Qed.

Lemma strip_bare (s : string) : bare Str.isspace (Str.strip s).
Proof. exact (proj1 (strip_by_spec Str.isspace s)). Qed.

Lemma strip_keeps_head (c : ascii) (s : string) :
  Str.isspace c = false -> exists t, Str.strip (String c s) = String c t.
Proof.
  intros Hc. unfold Str.strip. cbn [Str.lstrip_by]. rewrite Hc.
  cbn [Str.rstrip_by].
  destruct (Str.rstrip_by Str.isspace s); [rewrite Hc|]; eauto.
Qed.

(** X3.  The two components of a [use_resource] classification: the URI
    holds no space character, the URI and the query are trimmed, and the URI
    is empty only when the whole remainder is blank, in which case the query
    is empty too; so a line with a query always has a URI. *)
Theorem use_resource_components (r : string) :
  exists uri query,
    extract_meta_command ("@use_resource:" ++ r)
    = Ok (Some "use_resource", VPair uri query)
    /\ Str.mem " " uri = false
    /\ bare Str.isspace uri
    /\ bare Str.isspace query
    /\ (uri = "" <-> Str.strip r = "")
    /\ (uri = "" -> query = "").
Proof.
  rewrite extract_use_resource_eq. cbv zeta.
  pose proof (find_partition " " (Str.strip r)) as Hf.
  destruct (Str.partition " " (Str.strip r)) as [[a b]|] eqn:Hp.
  - destruct Hf as (Hf & _ & _). rewrite Hf.
    pose proof (partition_char_first _ _ Hp) as Ha.
    apply partition_app in Hp.
    destruct (Z.eqb_spec (Z.of_nat (String.length a)) (-1)); [lia|].
    cbn [negb]. rewrite Hp.
    rewrite slice_to_at, <- (append_assoc a " " b).
    replace (Z.of_nat (String.length a) + 1)%Z
      with (Z.of_nat (String.length (a ++ " ")))
      by (rewrite length_app; simpl; lia).
    rewrite slice_from_at.
    assert (Hne : Str.strip a <> "" /\ Str.strip r <> "").
    { destruct a as [|c a].
      - pose proof (strip_bare r) as [Hfirst _]. rewrite Hp in Hfirst.
        specialize (Hfirst " "%char eq_refl). discriminate.
      - pose proof (strip_bare r) as [Hfirst _]. rewrite Hp in Hfirst.
        specialize (Hfirst c eq_refl).
        destruct (@strip_keeps_head c a Hfirst) as (t & ->).
        split; [discriminate|]. rewrite Hp. discriminate. }
    destruct Hne as [Hu Hr].
    exists (Str.strip a), (Str.strip b). split; [reflexivity|].
    split; [apply mem_strip, Ha|].
    split; [apply strip_bare|]. split; [apply strip_bare|].
    split; [|contradiction].
    split; intros E; [contradiction|].
    exfalso. destruct a; discriminate E.
  - rewrite Hf. cbn. rewrite strip_idem.
    exists (Str.strip r), "". split; [reflexivity|].
    split; [apply partition_char_none, Hp|].
    split; [apply strip_bare|].
    split; [split; intros ? ?; discriminate|].
    split; [tauto | reflexivity].
Qed.

(** ** Dictionaries *)

Lemma get_setitem_same (V : Type) (d : Dict.t V) (k : string) (v : V) :
  Dict.get (Dict.setitem d k v) k = Some v.
Proof.
  induction d as [|[k' v'] d IH]; simpl.
  - rewrite String.eqb_refl. reflexivity.
  - destruct (String.eqb k k') eqn:E; simpl; rewrite E; auto.
Qed.

Lemma get_setitem_other (V : Type) (d : Dict.t V) (k k' : string) (v : V) :
  k' <> k -> Dict.get (Dict.setitem d k v) k' = Dict.get d k'.
Proof.
  intros Hne. induction d as [|[k0 v0] d IH]; simpl.
  - destruct (String.eqb_spec k' k); [contradiction | reflexivity].
  - destruct (String.eqb_spec k k0) as [->|]; simpl.
    + destruct (String.eqb_spec k' k0); [contradiction | reflexivity].
    + rewrite IH. reflexivity.
Qed.

Lemma existsb_keys (V : Type) (d : Dict.t V) (k : string) :
  existsb (String.eqb k) (Dict.keys d) = Dict.contains d k.
Proof.
  unfold Dict.contains.
  induction d as [|[k' v'] d IH]; simpl; [reflexivity|].
  destruct (String.eqb k k'); simpl; auto.
Qed.

Lemma setitem_absent (V : Type) (d : Dict.t V) (k : string) (v : V) :
  Dict.contains d k = false -> Dict.setitem d k v = (d ++ [(k, v)])%list.
Proof.
  unfold Dict.contains.
  induction d as [|[k' v'] d IH]; simpl; [reflexivity|].
  destruct (String.eqb k k'); [discriminate|].
  intros H. rewrite (IH H). reflexivity.
Qed.

Lemma keys_setitem_present (V : Type) (d : Dict.t V) (k : string) (v : V) :
  Dict.contains d k = true -> Dict.keys (Dict.setitem d k v) = Dict.keys d.
Proof.
  unfold Dict.contains, Dict.keys.
  induction d as [|[k' v'] d IH]; simpl; [discriminate|].
  destruct (String.eqb k k'); simpl; [reflexivity|].
  intros H. rewrite (IH H). reflexivity.
Qed.

Lemma existsb_app_one (k k0 : string) (l : list string) :
  existsb (String.eqb k) (l ++ [k0]) = existsb (String.eqb k) l || String.eqb k k0.
Proof. rewrite existsb_app. simpl. rewrite orb_false_r. reflexivity. Qed.

Lemma unique_keys_snoc (l : list string) (k : string) :
  unique_keys l = true -> existsb (String.eqb k) l = false ->
  unique_keys (l ++ [k]) = true.
Proof.
  induction l as [|k0 l IH]; simpl; [reflexivity|].
  intros H Hk. apply andb_true_iff in H as [H0 Hl].
  apply orb_false_elim in Hk as [Hk0 Hk].
  rewrite existsb_app_one, (IH Hl Hk).
  apply negb_true_iff in H0. rewrite H0.
  rewrite String.eqb_sym, Hk0. reflexivity.
Qed.

Lemma wf_setitem (V : Type) (d : Dict.t V) (k : string) (v : V) :
  dict_wf d = true -> dict_wf (Dict.setitem d k v) = true.
Proof.
  intros H. unfold dict_wf in *.
  destruct (Dict.contains d k) eqn:Hc.
  - rewrite keys_setitem_present; assumption.
  - rewrite setitem_absent by assumption.
    unfold Dict.keys. rewrite map_app. apply unique_keys_snoc; [exact H|].
    fold (Dict.keys d). rewrite existsb_keys. exact Hc.
Qed.

Lemma contains_delitem (V : Type) (d : Dict.t V) (k k' : string) :
  Dict.contains d k' = false -> Dict.contains (Dict.delitem d k) k' = false.
Proof.
  unfold Dict.contains.
  induction d as [|[k0 v0] d IH]; simpl; [auto|].
  destruct (String.eqb k' k0) eqn:E; [discriminate|].
  intros H. destruct (String.eqb k k0); [exact H|].
  simpl. rewrite E. apply IH, H.
Qed.

Lemma wf_delitem (V : Type) (d : Dict.t V) (k : string) :
  dict_wf d = true -> dict_wf (Dict.delitem d k) = true.
Proof.
  unfold dict_wf.
  induction d as [|[k0 v0] d IH]; simpl; [auto|].
  intros H. apply andb_true_iff in H as [H0 Hd].
  destruct (String.eqb k k0); [exact Hd|].
  simpl. rewrite (IH Hd), andb_true_r.
  apply negb_true_iff in H0. apply negb_true_iff.
  change (map fst (Dict.delitem d k)) with (Dict.keys (Dict.delitem d k)).
  change (map fst d) with (Dict.keys d) in H0.
  rewrite existsb_keys in *. apply contains_delitem, H0.
Qed.

Lemma get_delitem_same (V : Type) (d : Dict.t V) (k : string) :
  dict_wf d = true -> Dict.get (Dict.delitem d k) k = None.
Proof.
  unfold dict_wf.
  induction d as [|[k0 v0] d IH]; simpl; [auto|].
  intros H. apply andb_true_iff in H as [H0 Hd].
  destruct (String.eqb k k0) eqn:E.
  - apply String.eqb_eq in E. subst k0.
    apply negb_true_iff in H0.
    change (map fst d) with (Dict.keys d) in H0.
    rewrite existsb_keys in H0. unfold Dict.contains in H0.
    destruct (Dict.get d k); [discriminate | reflexivity].
  - simpl. rewrite E. apply IH, Hd.
Qed.

(** ** Argument parser, continued *)

Lemma split_segments_free (c : ascii) (fuel : nat) :
  forall s, String.length s <= fuel ->
            Forall (fun seg => Str.mem c seg = false)
                   (Str.split_fuel fuel s (String c "")).
Proof.
  induction fuel as [|fuel IH]; intros s Hl; simpl.
  - destruct s; [|simpl in Hl; lia]. repeat constructor.
  - destruct (Str.partition (String c "") s) as [[a b]|] eqn:Hp.
    + constructor; [exact (partition_char_first _ _ Hp)|].
      apply IH. apply partition_app in Hp. subst s.
      rewrite !length_app in Hl. simpl in Hl. lia.
    + constructor; [apply partition_char_none, Hp | constructor].
Qed.

Lemma setitem_entries (V : Type) (P : string * V -> Prop) (d : Dict.t V)
    (k : string) (v : V) :
  Forall P d -> P (k, v) -> Forall P (Dict.setitem d k v).
Proof.
  intros Hd Hk. induction Hd as [|[k' v'] d Hp Hd IH]; simpl.
  - repeat constructor. exact Hk.
  - destruct (String.eqb_spec k k') as [<-|].
    + constructor; assumption.
    + constructor; assumption.
Qed.

Lemma parse_pairs_keeps_clean (pairs : list string) :
  Forall (fun seg => Str.mem "," seg = false) pairs ->
  forall args,
    dict_wf args = true -> Forall pair_entry args ->
    dict_wf (fst (parse_pairs pairs args)) = true
    /\ Forall pair_entry (fst (parse_pairs pairs args)).
Proof.
  induction 1 as [|seg pairs Hseg _ IH]; intros args Hwf Hall; simpl;
    [auto|].
  destruct (Str.contains ":" seg) eqn:Hc; [|apply IH; assumption].
  unfold Str.split1.
  destruct (Str.partition ":" seg) as [[a b]|] eqn:Hp.
  - cbn [map]. apply IH; [apply wf_setitem, Hwf|].
    apply setitem_entries; [exact Hall|].
    pose proof (partition_char_first _ _ Hp) as Ha.
    apply partition_app in Hp. subst seg.
    rewrite !mem_app in Hseg.
    apply orb_false_elim in Hseg as [Hca Hseg].
    apply orb_false_elim in Hseg as [_ Hcb].
    exists (Str.strip b). cbn [fst snd].
    repeat split; try apply strip_bare; apply mem_strip; assumption.
  - cbn. auto.
Qed.

(** X4.  Whenever the decoder rejects the text, the parser answers with a
    mapping from strings to strings: no key occurs twice, keys and values are
    trimmed, no key holds a colon or a comma and no value holds a comma (a
    value keeps its own colons, but a comma always ends it). *)
Theorem fallback_mapping_is_clean
    (json_loads : string -> py pyvalue) (s : string) (e : exn) :
  json_loads (Str.strip s) = Raise e ->
  exn_cls e = JSONDecodeError ->
  exists d,
    parse_arguments json_loads s = Ok (PyDict d)
    /\ dict_wf d = true
    /\ Forall pair_entry d.
Proof.
  intros Hj Hc. rewrite (@parse_arguments_fallback json_loads s e Hj Hc).
  eexists. split; [reflexivity|].
  apply parse_pairs_keeps_clean.
  - apply split_segments_free. apply Nat.le_refl.
  - reflexivity.
  - constructor.
Qed.

Lemma fallback_mapping_is_clean_witness :
  exists d,
    parse_arguments Json.loads " url : http://x/a,b , depth:2, url: y " = Ok (PyDict d)
    /\ dict_wf d = true
    /\ Forall pair_entry d.
Proof.
  apply (@fallback_mapping_is_clean Json.loads
           " url : http://x/a,b , depth:2, url: y "
           (Exn JSONDecodeError "Expecting value")); reflexivity.
Defined.

(** *** Reading back the advertised pair format *)

Lemma lstrip_of_bare (p : ascii -> bool) (s : string) :
  (forall c, first_char s = Some c -> p c = false) -> Str.lstrip_by p s = s.
Proof.
  destruct s as [|c s]; simpl; [reflexivity|].
  intros H. rewrite (H c eq_refl). reflexivity.
Qed.

Lemma rstrip_of_bare (p : ascii -> bool) (s : string) :
  (forall c, last_char s = Some c -> p c = false) -> Str.rstrip_by p s = s.
Proof.
  induction s as [|c s IH]; [reflexivity|].
  intros H. cbn [Str.rstrip_by].
  destruct s as [|d s].
  - simpl. rewrite (H c eq_refl). reflexivity.
  - rewrite IH; [reflexivity|]. intros x Hx. apply H. exact Hx.
Qed.

Lemma strip_of_bare (s : string) : bare Str.isspace s -> Str.strip s = s.
Proof.
  intros [Hf Hl]. unfold Str.strip.
  rewrite lstrip_of_bare by exact Hf. apply rstrip_of_bare, Hl.
Qed.

Lemma first_char_app (a b : string) :
  first_char (a ++ b)
  = match first_char a with Some c => Some c | None => first_char b end.
Proof. destruct a; reflexivity. Qed.

Lemma last_char_cons (c : ascii) (s : string) :
  last_char (String c s)
  = match last_char s with Some d => Some d | None => Some c end.
Proof.
  destruct s as [|d s]; [reflexivity|].
  change (last_char (String c (String d s))) with (last_char (String d s)).
  destruct (last_char (String d s)) eqn:E; [reflexivity|].
  exfalso. revert d E. induction s as [|x s IH]; intros d E; [discriminate|].
  apply (IH x). exact E.
Qed.

Lemma last_char_none (s : string) : last_char s = None -> s = "".
Proof.
  destruct s as [|c s]; [reflexivity|]. rewrite last_char_cons.
  destruct (last_char s); discriminate.
Qed.

Lemma last_char_app (a b : string) :
  last_char (a ++ b)
  = match last_char b with Some c => Some c | None => last_char a end.
Proof.
  induction a as [|c a IH].
  - simpl. destruct (last_char b); reflexivity.
  - change (String c a ++ b) with (String c (a ++ b)).
    rewrite last_char_cons, IH.
    destruct (last_char b); [reflexivity|].
    rewrite last_char_cons. reflexivity.
Qed.

Lemma solid_glue (x y : string) :
  solid x -> solid y -> solid (x ++ ", " ++ y).
Proof.
  intros [Hx [Hxf _]] [Hy [_ Hyl]]. split; [destruct x; [congruence|discriminate]|].
  split; intros c.
  - rewrite first_char_app. destruct x; [congruence|]. apply Hxf.
  - rewrite !last_char_app.
    destruct (last_char y) eqn:E; [intros [= <-]; apply Hyl; reflexivity|].
    apply last_char_none in E. contradiction.
Qed.

Lemma solid_join (x : string) (items : list string) :
  solid x -> Forall solid items -> solid (Str.join ", " (x :: items)).
Proof.
  intros Hx Hi. revert x Hx.
  induction Hi as [|y items Hy _ IH]; intros x Hx; [exact Hx|].
  change (Str.join ", " (x :: y :: items))
    with (x ++ ", " ++ Str.join ", " (y :: items)).
  apply solid_glue; [exact Hx | apply IH, Hy].
Qed.

Lemma clean_pair_facts (kv : string * string) :
  clean_pair kv = true ->
  Str.mem ":" (fst kv) = false /\ Str.mem "," (fst kv) = false
  /\ Str.strip (fst kv) = fst kv
  /\ Str.mem "," (snd kv) = false /\ Str.strip (snd kv) = snd kv.
Proof.
  unfold clean_pair. intros H.
  repeat (apply andb_true_iff in H as [H ?]).
  repeat match goal with
         | X : negb _ = true |- _ => apply negb_true_iff in X
         | X : String.eqb _ _ = true |- _ => apply String.eqb_eq in X
         end.
  auto.
Qed.

Lemma pair_item_solid (kv : string * string) :
  clean_pair kv = true -> solid (pair_item kv).
Proof.
  intros H. destruct (clean_pair_facts kv H) as (_ & _ & Hk & _ & Hv).
  pose proof (strip_bare (fst kv)) as [Hkf _]. rewrite Hk in Hkf.
  pose proof (strip_bare (snd kv)) as [_ Hvl]. rewrite Hv in Hvl.
  unfold pair_item. split; [destruct (fst kv); discriminate|].
  split; intros c.
  - rewrite first_char_app. destruct (first_char (fst kv)) eqn:E.
    + intros [= <-]. apply Hkf. reflexivity.
    + simpl. intros [= <-]. reflexivity.
  - rewrite !last_char_app. destruct (last_char (snd kv)) eqn:E.
    + intros [= <-]. apply Hvl. reflexivity.
    + simpl. intros [= <-]. reflexivity.
Qed.

Lemma pair_item_no_comma (kv : string * string) :
  clean_pair kv = true -> Str.mem "," (pair_item kv) = false.
Proof.
  intros H. destruct (clean_pair_facts kv H) as (_ & Hk & _ & Hv & _).
  unfold pair_item. rewrite !mem_app, Hk, Hv. reflexivity.
Qed.

Lemma join_padded (y : string) (r : list string) :
  Str.join ", " (String " " y :: r) = String " " (Str.join ", " (y :: r)).
Proof. destruct r; reflexivity. Qed.

Lemma split_join_comma (items : list string) :
  Forall (fun s => Str.mem "," s = false) items ->
  forall (x : string) (fuel : nat),
    Str.mem "," x = false ->
    String.length (Str.join ", " (x :: items)) <= fuel ->
    Str.split_fuel fuel (Str.join ", " (x :: items)) ","
    = x :: map (String " ") items.
Proof.
  induction 1 as [|y r Hy _ IH]; intros x fuel Hx Hl.
  - cbn [Str.join map]. destruct fuel as [|fuel]; [reflexivity|].
    cbn [Str.split_fuel].
    apply partition_char_none in Hx. rewrite Hx. reflexivity.
  - change (Str.join ", " (x :: y :: r))
      with (x ++ String "," (String " " (Str.join ", " (y :: r)))) in *.
    destruct fuel as [|fuel];
      [rewrite length_app in Hl; simpl in Hl; lia|].
    cbn [Str.split_fuel].
    rewrite (partition_char_intro "," x _ Hx).
    rewrite <- join_padded. cbn [map]. f_equal.
    apply IH; [exact Hy|].
    rewrite join_padded. rewrite length_app in Hl. simpl in Hl |- *. lia.
Qed.

Lemma parse_segment (kv : string * string) (seg : string) :
  clean_pair kv = true ->
  seg = pair_item kv \/ seg = String " " (pair_item kv) ->
  Str.contains ":" seg = true
  /\ map Str.strip (Str.split1 seg ":") = [fst kv; snd kv].
Proof.
  intros H Hseg.
  destruct (clean_pair_facts kv H) as (Hc & _ & Hk & _ & Hv).
  assert (Hpad : exists pad,
             seg = pad ++ String ":" (snd kv)
             /\ Str.mem ":" pad = false /\ Str.strip pad = fst kv).
  { destruct Hseg as [->| ->].
    - exists (fst kv). auto.
    - exists (String " " (fst kv)). repeat split.
      + simpl. exact Hc.
      + unfold Str.strip in *. cbn [Str.lstrip_by].
        change (Str.isspace " ") with true. cbn iota. exact Hk. }
  destruct Hpad as (pad & -> & Hp & Hs).
  split.
  - change ":" with (String ":" "") at 1.
    rewrite contains_char, mem_app. simpl. apply orb_true_r.
  - unfold Str.split1. rewrite (partition_char_intro ":" pad _ Hp).
    cbn [map]. rewrite Hs, Hv. reflexivity.
Qed.

Lemma parse_pairs_items (kvs : list (string * string)) :
  forall (segs : list string) (args : Dict.t pyvalue),
    forallb clean_pair kvs = true ->
    Forall2 (fun seg kv => seg = pair_item kv \/ seg = String " " (pair_item kv))
            segs kvs ->
    parse_pairs segs args
    = (fold_left (fun d kv => Dict.setitem d (fst kv) (PyStr (snd kv))) kvs args,
       None).
Proof.
  induction kvs as [|kv kvs IH]; intros segs args Hc Hs.
  - inversion Hs. reflexivity.
  - inversion Hs as [|seg kv' segs' kvs' Hseg Hrest]; subst.
    change (clean_pair kv && forallb clean_pair kvs = true) in Hc.
    apply andb_true_iff in Hc as [Hkv Hc].
    destruct (@parse_segment kv seg Hkv Hseg) as (Hcont & Hsplit).
    cbn [parse_pairs fold_left]. rewrite Hcont, Hsplit.
    apply IH; assumption.
Qed.

(** X5.  Reading back the pair format: for keys and values that the format
    can carry (trimmed, keys free of colons and commas, values free of
    commas), the text [k1:v1, k2:v2, ...] that the decoder rejects as JSON is
    parsed into the dictionary obtained by assigning the pairs in order, so a
    repeated key keeps its first position and its last value. *)
Theorem pair_format_round_trip
    (json_loads : string -> py pyvalue) (kvs : list (string * string))
    (e : exn) :
  forallb clean_pair kvs = true ->
  json_loads (format_pairs kvs) = Raise e ->
  exn_cls e = JSONDecodeError ->
  parse_arguments json_loads (format_pairs kvs)
  = Ok (PyDict (dict_of_str_pairs kvs)).
Proof.
  intros Hc Hj He.
  destruct kvs as [|kv kvs].
  - change (format_pairs []) with "" in *.
    rewrite (@parse_arguments_fallback json_loads "" e Hj He). reflexivity.
  - pose proof Hc as Hall.
    change (clean_pair kv && forallb clean_pair kvs = true) in Hc.
    apply andb_true_iff in Hc as [Hkv Hc].
    assert (Hitems : Forall (fun kv => clean_pair kv = true) kvs)
      by (apply Forall_forall; apply (proj1 (forallb_forall _ _) Hc)).
    assert (Hs : Str.strip (format_pairs (kv :: kvs)) = format_pairs (kv :: kvs)).
    { apply strip_of_bare. unfold format_pairs. cbn [map].
      apply solid_join; [apply pair_item_solid, Hkv|].
      apply Forall_map. eapply Forall_impl; [|exact Hitems].
      intros a. apply pair_item_solid. }
    rewrite <- Hs in Hj.
    rewrite (@parse_arguments_fallback json_loads _ e Hj He), Hs.
    unfold Str.split, format_pairs. cbn [map].
    rewrite split_join_comma.
    + rewrite (@parse_pairs_items (kv :: kvs) _ (Dict.empty _) Hall);
        [reflexivity|].
      constructor; [left; reflexivity|].
      clear. induction kvs as [|a kvs IH]; cbn [map]; constructor;
        [right; reflexivity | exact IH].
    + apply Forall_map. eapply Forall_impl; [|exact Hitems].
      intros a. apply pair_item_no_comma.
    + apply pair_item_no_comma, Hkv.
    + apply Nat.le_refl.
Qed.

Lemma pair_format_round_trip_witness :
  parse_arguments Json.loads "topic:proof assistants, depth:2, topic:rocq"
  = Ok (PyDict [("topic", PyStr "rocq"); ("depth", PyStr "2")]).
Proof.
  apply (@pair_format_round_trip Json.loads
           [("topic", "proof assistants"); ("depth", "2"); ("topic", "rocq")]
           (Exn JSONDecodeError "Expecting value")); reflexivity.
Defined.

(** ** Session driver, continued *)

Lemma agent_calls_printed (outs : list output) :
  agent_calls (map Printed outs) = [].
Proof. induction outs; simpl; auto. Qed.

Lemma run_chat_summary (B : backend) (text : string) (w : world) :
  exists o rest,
    run_chat B text w
    = (Ok tt,
       World (loaded_resources w)
             (conversation w ++ HumanMessage text :: rest)
             (stdin w) (trace w ++ [AgentInvoked text; Printed o])).
Proof.
  destruct (run_chat_spec B text w) as (o & R).
  destruct (ainvoke_extends B (conversation w) text) as (rest & A).
  exists o, rest. rewrite R, A. reflexivity.
Qed.

Lemma run_research_summary (B : backend) (text : string) (w : world) :
  exists outs rest,
    run_research B text w
    = (Ok tt,
       World (loaded_resources w)
             (conversation w ++ HumanMessage text :: rest)
             (stdin w) (trace w ++ AgentInvoked text :: map Printed outs)).
Proof.
  destruct (run_research_spec B text w) as (outs & R).
  destruct (ainvoke_extends B (conversation w) text) as (rest & A).
  exists outs, rest. rewrite R, A. reflexivity.
Qed.

Lemma summary_quiet (w : world) (r : py control) (cache : Dict.t string)
    (input' : list string) (outs : list event) :
  r <> Ok Break -> agent_calls outs = [] ->
  turn_summary w r (World cache (conversation w) input' (trace w ++ outs)).
Proof.
  intros Hr Ho. split; [exact Hr|]. exists [], outs. cbn.
  rewrite app_nil_r. unfold grows_by. rewrite Ho. auto.
Qed.

Lemma summary_invoked (w : world) (r : py control) (cache : Dict.t string)
    (input' : list string) (pre : list event) (text : string)
    (rest : list message) (outs : list output) :
  r <> Ok Break -> agent_calls pre = [] ->
  turn_summary w r
    (World cache (conversation w ++ HumanMessage text :: rest) input'
           (trace w ++ pre ++ AgentInvoked text :: map Printed outs)).
Proof.
  intros Hr Hp. split; [exact Hr|].
  exists (HumanMessage text :: rest),
         (pre ++ AgentInvoked text :: map Printed outs)%list.
  cbn. repeat split. unfold grows_by, agent_calls.
  rewrite flat_map_app. fold (agent_calls pre). rewrite Hp. cbn.
  fold (agent_calls (map Printed outs)). rewrite agent_calls_printed.
  eauto.
Qed.

Lemma on_use_resource_summary (B : backend) (uri query : string) (w : world) :
  exists w',
    on_use_resource B (VPair uri query) w = (Ok Continue, w')
    /\ loaded_resources w' = loaded_resources w
    /\ stdin w' = stdin w
    /\ turn_summary w (Ok Continue) w'.
Proof.
  unfold on_use_resource.
  destruct (Str.is_empty query).
  - eexists. split; [reflexivity|]. run_monad. repeat split; try discriminate.
    exists [], [Printed OutQueryMissing; Printed OutUsage].
    rewrite app_nil_r, <- app_assoc. repeat split.
  - unfold bind at 1, get_resources.
    destruct (Dict.contains (loaded_resources w) uri); cbn.
    + unfold bind.
      match goal with
      | |- context [run_chat B ?t w] =>
          destruct (run_chat_summary B t w) as (o & rest & R); rewrite R
      end.
      eexists. split; [reflexivity|]. cbn. repeat split; try discriminate.
      exists (HumanMessage
                (inject_resource_into_message (loaded_resources w) query uri)
                :: rest),
             [AgentInvoked
                (inject_resource_into_message (loaded_resources w) query uri);
              Printed o].
      repeat split. unfold grows_by. cbn. eauto.
    + eexists. split; [reflexivity|]. run_monad.
      repeat split; try discriminate.
      exists [], [Printed (OutNotLoaded uri); Printed (OutLoadItFirst uri)].
      rewrite app_nil_r, <- app_assoc. repeat split.
Qed.

(** The [resource] branch in closed form. *)
Lemma on_resource_eq (B : backend) (uri : string) (w : world) :
  let cached := Dict.contains (loaded_resources w) uri in
  let dropped := if cached then Dict.delitem (loaded_resources w) uri
                 else loaded_resources w in
  on_resource B (VStr uri) w
  = (Ok Continue,
     World (match load_mcp_resources B uri with
            | Ok (first :: _) => Dict.setitem dropped uri first
            | _ => dropped
            end)
           (conversation w) (stdin w)
           (trace w
            ++ (if cached then [Printed (OutUpdatingResource uri)] else [])
            ++ [ResourceRequested uri;
                Printed (match load_mcp_resources B uri with
                         | Ok (_ :: _) => OutLoadedResource uri
                         | Ok [] => OutNoResourceFound uri
                         | Raise e => OutFailedResource e
                         end)])).
Proof.
  cbv zeta. unfold on_resource, call_load_mcp_resources. run_monad.
  destruct (Dict.contains (loaded_resources w) uri); cbn;
    destruct (load_mcp_resources B uri) as [[|first more]|e]; cbn;
    rewrite <- ?app_assoc; reflexivity.
Qed.

Lemma on_resource_summary (B : backend) (uri : string) (w : world) :
  exists w',
    on_resource B (VStr uri) w = (Ok Continue, w')
    /\ stdin w' = stdin w
    /\ turn_summary w (Ok Continue) w'.
Proof.
  rewrite on_resource_eq. cbv zeta. eexists. split; [reflexivity|].
  split; [reflexivity|]. apply summary_quiet; [discriminate|].
  destruct (Dict.contains _ _); reflexivity.
Qed.

Lemma run_research_eq (B : backend) (text : string) (w : world) :
  run_research B text w
  = (Ok tt,
     World (loaded_resources w) (fst (ainvoke B (conversation w) text))
           (stdin w)
           (trace w
            ++ AgentInvoked text
               :: match snd (ainvoke B (conversation w) text) with
                  | Ok content =>
                      [Printed OutResearchBegin; Printed (OutAI content);
                       Printed OutResearchEnd]
                  | Raise e => [Printed (OutAgentError e)]
                  end)).
Proof.
  unfold run_research, try_except, bind, agent_ainvoke, print, emit.
  destruct (ainvoke B (conversation w) text) as [messages [content|e]]; cbn;
    rewrite <- !app_assoc; reflexivity.
Qed.

#[local] Arguments prompt_text : simpl never.

Ltac summary_leaf :=
  split;
  [ discriminate
  | eexists _, _; split;
    [ first [ reflexivity | symmetry; apply app_nil_r ]
    | split;
      [ cbn; rewrite <- ?app_assoc; reflexivity
      | unfold grows_by; cbn; eauto ] ] ].

Ltac research_leaf B :=
  match goal with
  | |- context [run_research B ?t ?w0] =>
      let rest := fresh "rest" in
      let A := fresh "A" in
      rewrite (run_research_eq B t w0);
      destruct (ainvoke_extends B (conversation w0) t) as (rest & A);
      cbn in A; cbn;
      destruct (ainvoke B _ t) as [? [?|?]]; cbn in A |- *; subst
  end.

(** The [prompt] branch: it never ends the loop; it raises only out of the
    handler of a failed first resolution, at the end of the input or when the
    parser raises; it reads at most one line; it leaves the cache alone. *)
Lemma on_prompt_summary (B : backend) (name : string) (w : world) :
  exists r w',
    on_prompt B (VStr name) w = (r, w')
    /\ loaded_resources w' = loaded_resources w
    /\ turn_summary w r w'
    /\ (stdin w' = stdin w \/ exists line, stdin w = line :: stdin w')
    /\ (forall e, r = Raise e ->
          (exists e0, load_mcp_prompt B name None = Raise e0)
          /\ ((stdin w = [] /\ exn_cls e = EOFError)
              \/ exists line rest,
                   stdin w = line :: rest
                   /\ parse_arguments (json_loads B) (Str.strip line)
                      = Raise e)).
Proof.
  unfold on_prompt, call_load_mcp_prompt, on_prompt_failure.
  unfold bind at 1. unfold try_except at 1.
  unfold bind at 1. unfold bind at 1. unfold emit at 1, lift at 1.
  destruct (load_mcp_prompt B name None) as [[|p0 prompt]|e0] eqn:Hfirst.
  - run_monad. eexists _, _. split; [reflexivity|]. cbn.
    split; [reflexivity|]. split; [summary_leaf|].
    split; [auto | discriminate].
  - run_monad; research_leaf B;
      (eexists _, _; split; [reflexivity|]; cbn;
       split; [reflexivity|]; split; [summary_leaf|];
       split; [auto | discriminate]).
  - run_monad. unfold input. cbn.
    destruct (stdin w) as [|line rest] eqn:Hin; cbn.
    + eexists _, _. split; [reflexivity|]. cbn. rewrite ?Hin.
      split; [reflexivity|]. split; [summary_leaf|]. split; [auto|].
      intros e [= <-]. split; [eauto|]. left. auto.
    + destruct (parse_arguments (json_loads B) (Str.strip line))
        as [args|e] eqn:Hparse; cbn.
      * destruct (truthy args); cbn.
        -- unfold call_load_mcp_prompt. run_monad.
           destruct (load_mcp_prompt B name (Some args))
             as [[|q0 prompt]|ex]; cbn.
           ++ eexists _, _. split; [reflexivity|]. cbn. rewrite ?Hin.
              split; [reflexivity|]. split; [summary_leaf|].
              split; [eauto | discriminate].
           ++ research_leaf B;
                (eexists _, _; split; [reflexivity|]; cbn; rewrite ?Hin;
                 split; [reflexivity|]; split; [summary_leaf|];
                 split; [eauto | discriminate]).
           ++ eexists _, _. split; [reflexivity|]. cbn. rewrite ?Hin.
              split; [reflexivity|]. split; [summary_leaf|].
              split; [eauto | discriminate].
        -- eexists _, _. split; [reflexivity|]. cbn. rewrite ?Hin.
           split; [reflexivity|]. split; [summary_leaf|].
           split; [eauto | discriminate].
      * eexists _, _. split; [reflexivity|]. cbn. rewrite ?Hin.
        split; [reflexivity|]. split; [summary_leaf|]. split; [eauto|].
        intros e' [= <-]. split; [eauto|]. right. eauto.
Qed.

(** The loop body on a stripped line, branch by branch. *)
Lemma dispatch_summary (B : backend) (message : string) (w : world) :
  (is_exit_word message = true /\ dispatch B message w = (Ok Break, w))
  \/ (is_exit_word message = false
      /\ exists r w',
           dispatch B message w = (r, w')
           /\ turn_summary w r w'
           /\ (Str.startswith message "@resource:" = false ->
               loaded_resources w' = loaded_resources w)
           /\ (Str.startswith message "@prompt:" = false ->
               stdin w' = stdin w /\ r = Ok Continue)
           /\ (stdin w' = stdin w \/ exists line, stdin w = line :: stdin w')
           /\ (forall e, r = Raise e ->
                 exists name e0,
                   extract_meta_command message = Ok (Some "prompt", VStr name)
                   /\ load_mcp_prompt B name None = Raise e0
                   /\ ((stdin w = [] /\ exn_cls e = EOFError)
                       \/ exists line rest,
                            stdin w = line :: rest
                            /\ parse_arguments (json_loads B) (Str.strip line)
                               = Raise e))).
Proof.
  unfold dispatch. fold (is_exit_word message).
  destruct (is_exit_word message); [left; auto | right].
  split; [reflexivity|]. unfold bind at 1, lift at 1.
  pose proof (prefix_app "@resource:") as P1.
  pose proof (prefix_app "@prompt:") as P2.
  unfold Str.startswith.
  destruct (String.prefix "@resource:" message) eqn:H1.
  { destruct (prefix_split _ _ H1) as (s & ->).
    rewrite extract_resource_eq. cbn [cmd_is String.eqb Ascii.eqb Bool.eqb].
    cbn -[on_resource].
    destruct (on_resource_summary B
                (Str.strip_chars (String Str.dquote "") (Str.strip s)) w)
      as (w' & E & Hin & Hs).
    exists (Ok Continue), w'. split; [exact E|]. split; [exact Hs|].
    split; [discriminate|]. split; [auto|]. split; [auto | discriminate]. }
  destruct (String.prefix "@prompt:" message) eqn:H2.
  { destruct (prefix_split _ _ H2) as (s & ->).
    rewrite extract_prompt_eq. cbn -[on_prompt].
    destruct (on_prompt_summary B
                (Str.strip_chars (String Str.dquote "") (Str.strip s)) w)
      as (r & w' & E & Hc & Hs & Hin & Hr).
    exists r, w'. split; [exact E|]. split; [exact Hs|].
    split; [auto|]. split; [discriminate|]. split; [exact Hin|].
    intros e He. destruct (Hr e He) as ((e0 & He0) & Hcase).
    eexists _, e0. split; [reflexivity|]. auto. }
  destruct (String.prefix "@use_resource:" message) eqn:H3.
  { destruct (prefix_split _ _ H3) as (s & ->).
    destruct (extract_use_resource_shape s) as (uri & query & E).
    rewrite E. cbn -[on_use_resource].
    destruct (on_use_resource_summary B uri query w)
      as (w' & E' & Hc & Hin & Hs).
    exists (Ok Continue), w'. split; [exact E'|]. split; [exact Hs|].
    split; [auto|]. split; [auto|]. split; [auto | discriminate]. }
  assert (E : extract_meta_command message = Ok (None, VNone)).
  { unfold extract_meta_command, Str.startswith. rewrite H1, H2, H3.
    reflexivity. }
  rewrite E. cbn -[run_chat]. unfold bind.
  destruct (run_chat_summary B message w) as (o & rest & R). rewrite R.
  eexists _, _. split; [reflexivity|]. cbn.
  split; [summary_leaf|]. split; [auto|]. split; [auto|].
  split; [auto | discriminate].
Qed.

(** X6.  Every turn invokes the agent at most once, and the conversation
    only grows, by what that invocation appends: after a turn it is the
    conversation before the turn, followed, when the agent was invoked, by
    messages that begin with the submitted text as the user message; without
    an invocation it is unchanged. *)
Theorem turn_invokes_agent_at_most_once
    (B : backend) (message : string) (w : world) :
  exists added new,
    conversation (snd (dispatch B message w)) = (conversation w ++ added)%list
    /\ trace (snd (dispatch B message w)) = (trace w ++ new)%list
    /\ length (agent_calls new) <= 1
    /\ match agent_calls new with
       | [] => added = []
       | text :: _ => exists rest, added = HumanMessage text :: rest
       end.
Proof.
  destruct (dispatch_summary B message w)
    as [(_ & E)|(_ & r & w' & E & (_ & added & new & Hc & Ht & Hg) & _)];
    rewrite E; cbn [snd].
  - exists [], []. rewrite !app_nil_r. cbn. auto.
  - exists added, new. split; [exact Hc|]. split; [exact Ht|].
    unfold grows_by in Hg.
    destruct (agent_calls new) as [|text [|? ?]]; cbn; auto; contradiction.
Qed.

(** X7.  The cache changes only in a [@resource:] turn and further input is
    read only in a [@prompt:] turn: every other turn leaves the cache, or
    the pending input, as it found it; and no turn reads more than one
    further line. *)
Theorem only_resource_turns_touch_the_cache
    (B : backend) (message : string) (w : world) :
  (Str.startswith message "@resource:" = false ->
   loaded_resources (snd (dispatch B message w)) = loaded_resources w)
  /\ (Str.startswith message "@prompt:" = false ->
      stdin (snd (dispatch B message w)) = stdin w)
  /\ (stdin (snd (dispatch B message w)) = stdin w
      \/ exists line, stdin w = line :: stdin (snd (dispatch B message w))).
Proof.
  destruct (dispatch_summary B message w)
    as [(_ & E)|(_ & r & w' & E & _ & Hc & Hp & Hin & _)];
    rewrite E; cbn [snd].
  - auto.
  - split; [exact Hc|]. split; [|exact Hin]. intros H. apply Hp, H.
Qed.

Lemma only_resource_turns_touch_the_cache_witness :
  loaded_resources
    (snd (dispatch Sample.B "@prompt:nope"
            (World [("x", "hello")] [] ["a:1"; "next"] [])))
  = [("x", "hello")]
  /\ stdin (snd (dispatch Sample.B "@use_resource:x what?"
                   (World [("x", "hello")] [] ["next"] [])))
     = ["next"].
Proof.
  split.
  - apply (proj1 (only_resource_turns_touch_the_cache Sample.B "@prompt:nope"
                    (World [("x", "hello")] [] ["a:1"; "next"] []))).
    reflexivity.
  - apply (proj1 (proj2 (only_resource_turns_touch_the_cache Sample.B
                           "@use_resource:x what?"
                           (World [("x", "hello")] [] ["next"] [])))).
    reflexivity.
Defined.

(** X8.  The loop ends normally only on an exit word: the loop body answers
    [Break] exactly when the stripped line, lowered, is [exit] or [quit], and
    then it has done nothing else. *)
Theorem loop_breaks_only_on_exit_word
    (B : backend) (message : string) (w : world) :
  (fst (dispatch B message w) = Ok Break <-> is_exit_word message = true)
  /\ (is_exit_word message = true -> dispatch B message w = (Ok Break, w)).
Proof.
  destruct (dispatch_summary B message w)
    as [(Hx & E)|(Hx & r & w' & E & (Hr & _) & _)]; rewrite E, Hx; cbn [fst].
  - repeat split; auto.
  - repeat split; try discriminate. intros H. contradiction.
Qed.

Lemma loop_breaks_only_on_exit_word_witness :
  dispatch Sample.B "QuIt" (Sample.start ["more"])
  = (Ok Break, Sample.start ["more"]).
Proof.
  apply (proj2 (loop_breaks_only_on_exit_word Sample.B "QuIt"
                  (Sample.start ["more"]))).
  reflexivity.
Defined.

(** X9.  Failures of the agent, of the model, of the tools and of the
    resource and prompt backends never leave an iteration of the loop.  An
    iteration raises only where it reads the console, or with what the
    argument parser raised: [EOFError] when no line is left at the user
    prompt; and, in a [@prompt:] turn whose first resolution failed,
    [EOFError] when no line is left at the arguments prompt, or the exception
    that [parse_arguments] raised on the line read there. *)
Theorem loop_body_raises_only_when_reading
    (B : backend) (w : world) (e : exn) :
  fst (turn B w) = Raise e ->
  (stdin w = [] /\ exn_cls e = EOFError)
  \/ exists raw rest name e0,
       stdin w = raw :: rest
       /\ extract_meta_command (Str.strip raw) = Ok (Some "prompt", VStr name)
       /\ load_mcp_prompt B name None = Raise e0
       /\ ((rest = [] /\ exn_cls e = EOFError)
           \/ exists line rest',
                rest = line :: rest'
                /\ parse_arguments (json_loads B) (Str.strip line) = Raise e).
Proof.
  unfold turn. unfold bind at 1. unfold input at 1.
  destruct (stdin w) as [|raw rest] eqn:Hin.
  - cbn. intros [= <-]. left. auto.
  - match goal with
    | |- context [dispatch B _ ?w1] =>
        destruct (dispatch_summary B (Str.strip raw) w1)
          as [(_ & E)|(_ & r & w' & E & _ & _ & _ & _ & Hr)]
    end; rewrite E; cbn [fst]; [discriminate|].
    intros He. destruct (Hr e He) as (name & e0 & Hx & Hfirst & Hcase).
    right. exists raw, rest, name, e0. cbn [stdin] in Hcase. auto.
Qed.

Lemma loop_body_raises_only_when_reading_witness :
  ((stdin (Sample.start []) = []
    /\ exn_cls (Exn EOFError "EOF when reading a line") = EOFError)
   \/ exists raw rest name e0,
        stdin (Sample.start []) = raw :: rest
        /\ extract_meta_command (Str.strip raw)
           = Ok (Some "prompt", VStr name)
        /\ load_mcp_prompt Sample.B name None = Raise e0
        /\ ((rest = []
             /\ exn_cls (Exn EOFError "EOF when reading a line") = EOFError)
            \/ exists line rest',
                 rest = line :: rest'
                 /\ parse_arguments (json_loads Sample.B) (Str.strip line)
                    = Raise (Exn EOFError "EOF when reading a line")))
  /\ ((stdin (Sample.start [" @prompt:nope "]) = []
       /\ exn_cls (Exn EOFError "EOF when reading a line") = EOFError)
      \/ exists raw rest name e0,
           stdin (Sample.start [" @prompt:nope "]) = raw :: rest
           /\ extract_meta_command (Str.strip raw)
              = Ok (Some "prompt", VStr name)
           /\ load_mcp_prompt Sample.B name None = Raise e0
           /\ ((rest = []
                /\ exn_cls (Exn EOFError "EOF when reading a line") = EOFError)
               \/ exists line rest',
                    rest = line :: rest'
                    /\ parse_arguments (json_loads Sample.B) (Str.strip line)
                       = Raise (Exn EOFError "EOF when reading a line"))).
Proof.
  split.
  - apply (@loop_body_raises_only_when_reading Sample.B (Sample.start [])
             (Exn EOFError "EOF when reading a line")).
    reflexivity.
  - apply (@loop_body_raises_only_when_reading Sample.B
             (Sample.start [" @prompt:nope "])
             (Exn EOFError "EOF when reading a line")).
    reflexivity.
Defined.

(** ** Resource cache *)

Lemma dropped_is_delitem (V : Type) (d : Dict.t V) (k : string) :
  (if Dict.contains d k then Dict.delitem d k else d) = Dict.delitem d k.
Proof.
  destruct (Dict.contains d k) eqn:E; [reflexivity|].
  symmetry. apply delitem_absent, E.
Qed.

Lemma contains_delitem_same (V : Type) (d : Dict.t V) (k : string) :
  dict_wf d = true -> Dict.contains (Dict.delitem d k) k = false.
Proof.
  intros H. unfold Dict.contains. rewrite get_delitem_same by exact H.
  reflexivity.
Qed.

Lemma resource_turn_eq (B : backend) (message uri : string) (w : world) :
  extract_meta_command message = Ok (Some "resource", VStr uri) ->
  dispatch B message w
  = (Ok Continue,
     World (match load_mcp_resources B uri with
            | Ok (first :: _) =>
                Dict.setitem (Dict.delitem (loaded_resources w) uri) uri first
            | _ => Dict.delitem (loaded_resources w) uri
            end)
           (conversation w) (stdin w)
           (trace w
            ++ (if Dict.contains (loaded_resources w) uri
                then [Printed (OutUpdatingResource uri)] else [])
            ++ [ResourceRequested uri;
                Printed (match load_mcp_resources B uri with
                         | Ok (_ :: _) => OutLoadedResource uri
                         | Ok [] => OutNoResourceFound uri
                         | Raise e => OutFailedResource e
                         end)])).
Proof.
  intros H. rewrite (@dispatch_directive B _ _ _ w H).
  cbn -[on_resource]. rewrite on_resource_eq. cbv zeta.
  rewrite dropped_is_delitem. reflexivity.
Qed.

(** X10.  A [@resource:] turn whose fetch returns at least one blob caches
    the text of the first blob under the URI and nothing else: looking the
    URI up afterwards gives that text, every other entry is as before, and
    the URI is the newest key of the cache (a reload moves it to the end of
    the listing).  The conversation is not touched. *)
Theorem resource_load_caches_first_blob
    (B : backend) (message uri first : string) (more : list string)
    (w : world) :
  extract_meta_command message = Ok (Some "resource", VStr uri) ->
  load_mcp_resources B uri = Ok (first :: more) ->
  dict_wf (loaded_resources w) = true ->
  let w' := snd (dispatch B message w) in
  Dict.get (loaded_resources w') uri = Some first
  /\ (forall k, k <> uri ->
        Dict.get (loaded_resources w') k = Dict.get (loaded_resources w) k)
  /\ loaded_resources w'
     = (Dict.delitem (loaded_resources w) uri ++ [(uri, first)])%list
  /\ dict_wf (loaded_resources w') = true
  /\ conversation w' = conversation w.
Proof.
  intros H Hf Hwf. cbv zeta. rewrite (@resource_turn_eq B _ _ w H), Hf.
  cbn [snd loaded_resources conversation].
  split; [apply get_setitem_same|].
  split; [intros k Hk; rewrite get_setitem_other by exact Hk;
          apply get_delitem_other, Hk|].
  split; [apply setitem_absent, contains_delitem_same, Hwf|].
  split; [apply wf_setitem, wf_delitem, Hwf | reflexivity].
Qed.

Lemma resource_load_caches_first_blob_witness :
  loaded_resources
    (snd (dispatch Sample.B "@resource:vector://list"
            (World [("vector://list", "old"); ("notes", "n")] [] [] [])))
  = [("notes", "n"); ("vector://list", "DB Name: papers")].
Proof.
  apply (@resource_load_caches_first_blob Sample.B "@resource:vector://list"
           "vector://list" "DB Name: papers" []
           (World [("vector://list", "old"); ("notes", "n")] [] [] [])
           eq_refl eq_refl eq_refl).
Defined.

(** X11.  A [@resource:] turn whose fetch fails or returns no blob leaves
    the URI uncached, also when it was cached before; every other entry is
    as before. *)
Theorem unsuccessful_load_leaves_uri_uncached
    (B : backend) (message uri : string) (w : world) :
  extract_meta_command message = Ok (Some "resource", VStr uri) ->
  load_mcp_resources B uri = Ok [] \/
  (exists e, load_mcp_resources B uri = Raise e) ->
  dict_wf (loaded_resources w) = true ->
  let w' := snd (dispatch B message w) in
  Dict.contains (loaded_resources w') uri = false
  /\ (forall k, k <> uri ->
        Dict.get (loaded_resources w') k = Dict.get (loaded_resources w) k)
  /\ dict_wf (loaded_resources w') = true.
Proof.
  intros H Hf Hwf. cbv zeta. rewrite (@resource_turn_eq B _ _ w H).
  assert (E : match load_mcp_resources B uri with
              | Ok (first :: _) =>
                  Dict.setitem (Dict.delitem (loaded_resources w) uri) uri first
              | _ => Dict.delitem (loaded_resources w) uri
              end = Dict.delitem (loaded_resources w) uri)
    by (destruct Hf as [->|(e & ->)]; reflexivity).
  cbn [snd loaded_resources]. rewrite E.
  split; [apply contains_delitem_same, Hwf|].
  split; [intros k Hk; apply get_delitem_other, Hk | apply wf_delitem, Hwf].
Qed.

Lemma unsuccessful_load_leaves_uri_uncached_witness :
  Dict.contains
    (loaded_resources
       (snd (dispatch Sample.B "@resource:nope"
               (World [("nope", "old"); ("notes", "n")] [] [] []))))
    "nope" = false.
Proof.
  apply (@unsuccessful_load_leaves_uri_uncached Sample.B "@resource:nope"
           "nope" (World [("nope", "old"); ("notes", "n")] [] [] [])
           eq_refl).
  - right. eexists. reflexivity.
  - reflexivity.
Defined.

Lemma use_resource_turn_cached (B : backend) (message uri query content : string)
    (w : world) :
  extract_meta_command message = Ok (Some "use_resource", VPair uri query) ->
  query <> "" ->
  Dict.get (loaded_resources w) uri = Some content ->
  exists o rest,
    dispatch B message w
    = (Ok Continue,
       World (loaded_resources w)
             (conversation w
              ++ HumanMessage (using_resource_text uri content query) :: rest)
             (stdin w)
             (trace w ++ [AgentInvoked (using_resource_text uri content query);
                          Printed o])).
Proof.
  intros H Hq Hg. rewrite (@dispatch_directive B _ _ _ w H). cbn.
  destruct query as [|c query]; [congruence|]. cbn.
  unfold bind at 1, get_resources.
  assert (Hc : Dict.contains (loaded_resources w) uri = true)
    by (unfold Dict.contains; rewrite Hg; reflexivity).
  rewrite Hc. cbn.
  destruct (inject_cached (loaded_resources w) (String c query) uri Hc)
    as (content' & Hg' & Hi).
  rewrite Hg in Hg'. injection Hg' as <-. rewrite Hi. unfold bind.
  destruct (run_chat_summary B (using_resource_text uri content (String c query)) w)
    as (o & rest & R).
  rewrite R. exists o, rest. reflexivity.
Qed.

Lemma use_resource_turn_rejected (B : backend) (message uri query : string)
    (w : world) :
  extract_meta_command message = Ok (Some "use_resource", VPair uri query) ->
  Dict.contains (loaded_resources w) uri = false ->
  dispatch B message w
  = (Ok Continue,
     World (loaded_resources w) (conversation w) (stdin w)
           (trace w ++ if Str.is_empty query
                       then [Printed OutQueryMissing; Printed OutUsage]
                       else [Printed (OutNotLoaded uri);
                             Printed (OutLoadItFirst uri)])).
Proof.
  intros H Hc. rewrite (@dispatch_directive B _ _ _ w H). cbn.
  destruct query as [|c query]; cbn; run_monad.
  - rewrite <- app_assoc. reflexivity.
  - rewrite Hc. cbn. rewrite <- app_assoc. reflexivity.
Qed.

(** X12.  Load, then use: after a [@resource:] turn whose fetch returned a
    blob, a [@use_resource:] turn for the same URI with a query invokes the
    agent exactly once, with the marker line, the text of that blob and the
    query, whatever the cache held before. *)
Theorem load_then_use_reaches_agent
    (B : backend) (load use uri query first : string) (more : list string)
    (w : world) :
  extract_meta_command load = Ok (Some "resource", VStr uri) ->
  extract_meta_command use = Ok (Some "use_resource", VPair uri query) ->
  query <> "" ->
  load_mcp_resources B uri = Ok (first :: more) ->
  let w1 := snd (dispatch B load w) in
  exists o rest,
    dispatch B use w1
    = (Ok Continue,
       World (loaded_resources w1)
             (conversation w
              ++ HumanMessage (using_resource_text uri first query) :: rest)
             (stdin w)
             (trace w1 ++ [AgentInvoked (using_resource_text uri first query);
                           Printed o])).
Proof.
  intros Hl Hu Hq Hf. cbv zeta.
  assert (Hg : Dict.get (loaded_resources (snd (dispatch B load w))) uri
               = Some first).
  { rewrite (@resource_turn_eq B _ _ w Hl), Hf. cbn. apply get_setitem_same. }
  destruct (@use_resource_turn_cached B use uri query first _ Hu Hq Hg)
    as (o & rest & E).
  exists o, rest. rewrite E. rewrite (@resource_turn_eq B _ _ w Hl). reflexivity.
Qed.

Lemma load_then_use_reaches_agent_witness :
  exists o rest,
    dispatch Sample.B "@use_resource:vector://list summarize"
             (snd (dispatch Sample.B "@resource:vector://list"
                     (Sample.start [])))
    = (Ok Continue,
       World (loaded_resources
                (snd (dispatch Sample.B "@resource:vector://list"
                        (Sample.start []))))
             ([] ++ HumanMessage
                      (using_resource_text "vector://list" "DB Name: papers"
                                           "summarize") :: rest)
             []
             (trace (snd (dispatch Sample.B "@resource:vector://list"
                            (Sample.start [])))
              ++ [AgentInvoked
                    (using_resource_text "vector://list" "DB Name: papers"
                                         "summarize");
                  Printed o])).
Proof.
  apply (@load_then_use_reaches_agent Sample.B "@resource:vector://list"
           "@use_resource:vector://list summarize" "vector://list"
           "summarize" "DB Name: papers" [] (Sample.start [])
           eq_refl eq_refl); [discriminate | reflexivity].
Defined.

(** X13.  A failed reload makes the resource unusable: after a
    [@resource:] turn whose fetch fails or returns no blob, a
    [@use_resource:] turn for the same URI is rejected with a hint, the agent
    is not invoked and the conversation stays as it was, even if the URI was
    cached before the reload. *)
Theorem failed_reload_then_use_is_rejected
    (B : backend) (load use uri query : string) (w : world) :
  extract_meta_command load = Ok (Some "resource", VStr uri) ->
  extract_meta_command use = Ok (Some "use_resource", VPair uri query) ->
  load_mcp_resources B uri = Ok [] \/
  (exists e, load_mcp_resources B uri = Raise e) ->
  dict_wf (loaded_resources w) = true ->
  let w1 := snd (dispatch B load w) in
  exists hints,
    dispatch B use w1
    = (Ok Continue,
       World (loaded_resources w1) (conversation w) (stdin w)
             (trace w1 ++ hints))
    /\ agent_calls hints = []
    /\ hints = if Str.is_empty query
               then [Printed OutQueryMissing; Printed OutUsage]
               else [Printed (OutNotLoaded uri); Printed (OutLoadItFirst uri)].
Proof.
  intros Hl Hu Hf Hwf. cbv zeta.
  assert (Hc : Dict.contains (loaded_resources (snd (dispatch B load w))) uri
               = false).
  { rewrite (@resource_turn_eq B _ _ w Hl). cbn [snd loaded_resources].
    destruct Hf as [->|(e & ->)]; apply contains_delitem_same, Hwf. }
  rewrite (@use_resource_turn_rejected B use uri query _ Hu Hc).
  rewrite (@resource_turn_eq B _ _ w Hl). cbn [snd conversation stdin].
  eexists. split; [reflexivity|].
  split; [destruct (Str.is_empty query); reflexivity | reflexivity].
Qed.

Lemma failed_reload_then_use_is_rejected_witness :
  exists hints,
    dispatch Sample.B "@use_resource:nope what?"
             (snd (dispatch Sample.B "@resource:nope"
                     (World [("nope", "old")] [] [] [])))
    = (Ok Continue,
       World (loaded_resources
                (snd (dispatch Sample.B "@resource:nope"
                        (World [("nope", "old")] [] [] []))))
             [] []
             (trace (snd (dispatch Sample.B "@resource:nope"
                            (World [("nope", "old")] [] [] [])))
              ++ hints))
    /\ agent_calls hints = []
    /\ hints = [Printed (OutNotLoaded "nope"); Printed (OutLoadItFirst "nope")].
Proof.
  apply (@failed_reload_then_use_is_rejected Sample.B "@resource:nope"
           "@use_resource:nope what?" "nope" "what?"
           (World [("nope", "old")] [] [] []) eq_refl eq_refl).
  - right. eexists. reflexivity.
  - reflexivity.
Defined.

(** ** The session loop *)

Lemma exn_class_eqb_neq (c : exn_class) :
  c <> JSONDecodeError -> exn_class_eqb c JSONDecodeError = false.
Proof. destruct c; intros H; try reflexivity. contradiction. Qed.

Lemma parse_arguments_raises
    (json_loads : string -> py pyvalue) (s : string) (e : exn) :
  json_loads (Str.strip s) = Raise e ->
  exn_cls e <> JSONDecodeError ->
  parse_arguments json_loads s = Raise e.
Proof.
  intros Hj Hc. unfold parse_arguments.
  rewrite Hj, (exn_class_eqb_neq Hc). reflexivity.
Qed.

(** X14.  The parser catches [JSONDecodeError] only.  When the decoder
    raises anything else on the line typed at the arguments prompt, the
    exception escapes the parser, the handler and the loop: the session ends
    with it, the lines that follow are not read, and neither the agent nor
    the cache has been touched. *)
Theorem decoder_error_ends_the_session
    (B : backend) (raw name line : string) (rest : list string)
    (e0 e : exn) (fuel : nat) (w : world) :
  stdin w = raw :: line :: rest ->
  extract_meta_command (Str.strip raw) = Ok (Some "prompt", VStr name) ->
  load_mcp_prompt B name None = Raise e0 ->
  json_loads B (Str.strip line) = Raise e ->
  exn_cls e <> JSONDecodeError ->
  parse_arguments (json_loads B) line = Raise e
  /\ exists after,
       main_loop B (S fuel) w = (Raise e, after)
       /\ stdin after = rest
       /\ conversation after = conversation w
       /\ loaded_resources after = loaded_resources w
       /\ agent_calls (trace after) = agent_calls (trace w).
Proof.
  intros Hin Hx Hfirst Hj Hc.
  split; [apply parse_arguments_raises; assumption|].
  assert (Hp : parse_arguments (json_loads B) (Str.strip line) = Raise e)
    by (apply parse_arguments_raises; [rewrite strip_idem|]; assumption).
  cbn [main_loop]. unfold turn. unfold bind at 1. unfold bind at 1.
  unfold input at 1. rewrite Hin.
  rewrite (@dispatch_directive B _ _ _ _ Hx). cbn -[on_prompt].
  unfold on_prompt, call_load_mcp_prompt, on_prompt_failure.
  unfold bind at 1. unfold try_except at 1.
  unfold bind at 1. unfold bind at 1. unfold emit at 1, lift at 1.
  rewrite Hfirst. run_monad. unfold input. cbn. rewrite Hp. cbn.
  eexists. split; [reflexivity|]. cbn. repeat split.
  unfold agent_calls. rewrite !flat_map_app. cbn. rewrite !app_nil_r.
  reflexivity.
Qed.

Lemma decoder_error_ends_the_session_witness :
  exists after,
    main_loop limited_backend 3
              (Sample.start ["@prompt:research_prompt";
                             replicate 4301 "1"; "hello"])
    = (Raise (Exn ValueError
                "Exceeds the limit (4300 digits) for integer string conversion"),
       after)
    /\ stdin after = ["hello"].
Proof.
  destruct (@decoder_error_ends_the_session limited_backend
              "@prompt:research_prompt" "research_prompt"
              (replicate 4301 "1") ["hello"] Sample.missing_arguments
              (Exn ValueError
                 "Exceeds the limit (4300 digits) for integer string conversion")
              2
              (Sample.start ["@prompt:research_prompt";
                             replicate 4301 "1"; "hello"]))
    as (_ & after & E & S & _).
  - reflexivity.
  - reflexivity.
  - reflexivity.
  - vm_compute. reflexivity.
  - discriminate.
  - exists after. split; assumption.
Defined.

(** X15.  A session whose input holds no exit word does not end normally:
    with enough iterations for the lines at hand, the loop ends with an
    exception (the [EOFError] of the read at the end of the input, or what
    the argument parser raised). *)
Theorem input_without_exit_word_ends_in_exception (B : backend) :
  forall (fuel : nat) (w : world),
    forallb (fun line => negb (is_exit_word (Str.strip line))) (stdin w)
    = true ->
    length (stdin w) < fuel ->
    exists e after, main_loop B fuel w = (Raise e, after).
Proof.
  induction fuel as [|fuel IH]; intros w Hok Hlen; [lia|].
  cbn [main_loop]. unfold turn. unfold bind at 1. unfold bind at 1.
  unfold input at 1.
  destruct (stdin w) as [|raw rest] eqn:Hin; [eauto|].
  cbn [forallb] in Hok. apply andb_true_iff in Hok as [Hraw Hrest].
  apply negb_true_iff in Hraw.
  match goal with
  | |- context [dispatch B _ ?w1] =>
      destruct (dispatch_summary B (Str.strip raw) w1)
        as [(Hx & _)|(_ & r & w' & E & (Hr & _) & _ & _ & Hs & _)]
  end; [congruence|].
  rewrite E. destruct r as [[|]|e]; [|contradiction|eauto].
  apply IH.
  - cbn [stdin] in Hs. destruct Hs as [->|(line & Hl)]; [exact Hrest|].
    rewrite Hl in Hrest. cbn [forallb] in Hrest.
    apply andb_true_iff in Hrest as [_ Hrest]. exact Hrest.
  - cbn [stdin] in Hs. cbn [length] in Hlen.
    destruct Hs as [->|(line & Hl)]; [lia|].
    rewrite Hl in Hlen. cbn [length] in Hlen. lia.
Qed.

Lemma input_without_exit_word_ends_in_exception_witness :
  exists e after,
    main_loop Sample.B 3 (Sample.start ["hello"; "@resource:vector://list"])
    = (Raise e, after).
Proof.
  apply (@input_without_exit_word_ends_in_exception Sample.B 3
           (Sample.start ["hello"; "@resource:vector://list"])).
  - reflexivity.
  - simpl. lia.
Defined.

(** ** The [prompt] directive, continued *)

Ltac submitted_leaf :=
  eexists; split; [cbn; rewrite <- ?app_assoc; reflexivity|];
  cbn; intros text Hin;
  first
    [ contradiction
    | destruct Hin as [<-|[]];
      eexists _, _; split; [eassumption|];
      split; [discriminate|]; split; [reflexivity|]; cbn; auto ].

(** X16.  In a [@prompt:] turn the agent only ever receives the text of a
    resolved prompt: whenever it is invoked, the text is the content of the
    only message of a resolution that the turn requested and that succeeded
    with at least one message, or the contents of its messages joined by
    newlines. *)
Theorem prompt_turn_submits_resolved_text
    (B : backend) (message name : string) (w : world) :
  extract_meta_command message = Ok (Some "prompt", VStr name) ->
  exists new,
    trace (snd (dispatch B message w)) = (trace w ++ new)%list
    /\ forall text, In text (agent_calls new) ->
         exists arguments prompt,
           load_mcp_prompt B name arguments = Ok prompt
           /\ prompt <> []
           /\ text = prompt_text prompt
           /\ In (name, arguments) (resolutions new).
Proof.
  intros H. rewrite (@dispatch_directive B _ _ _ w H). cbn -[on_prompt].
  unfold on_prompt, call_load_mcp_prompt, on_prompt_failure.
  unfold bind at 1. unfold bind at 1. unfold try_except at 1.
  unfold bind at 1. unfold bind at 1. unfold emit at 1, lift at 1.
  destruct (load_mcp_prompt B name None) as [[|p0 prompt]|e0] eqn:Hfirst.
  - run_monad. submitted_leaf.
  - run_monad; research_leaf B; submitted_leaf.
  - run_monad. unfold input. cbn.
    destruct (stdin w) as [|line rest] eqn:Hstdin; cbn; [submitted_leaf|].
    destruct (parse_arguments (json_loads B) (Str.strip line))
      as [args|e] eqn:Hparse; cbn; [|submitted_leaf].
    destruct (truthy args); cbn; [|submitted_leaf].
    unfold call_load_mcp_prompt. run_monad.
    destruct (load_mcp_prompt B name (Some args))
      as [[|q0 prompt]|ex] eqn:Hretry; cbn.
    + submitted_leaf.
    + research_leaf B; submitted_leaf.
    + submitted_leaf.
Qed.

Lemma prompt_turn_submits_resolved_text_witness :
  exists new,
    trace (snd (dispatch Sample.B "@prompt:research_prompt"
                  (Sample.start ["topic: rocq"])))
    = ([] ++ new)%list
    /\ forall text, In text (agent_calls new) ->
         exists arguments prompt,
           load_mcp_prompt Sample.B "research_prompt" arguments = Ok prompt
           /\ prompt <> []
           /\ text = prompt_text prompt
           /\ In ("research_prompt", arguments) (resolutions new).
Proof.
  apply (@prompt_turn_submits_resolved_text Sample.B "@prompt:research_prompt"
           "research_prompt" (Sample.start ["topic: rocq"])).
  reflexivity.
Defined.

(** ** Agent graph, continued *)




(** ** Server *)

Lemma collect_labelled (entries : list (string * py bool)) :
  forall l, Server.collect entries = Ok l ->
            l = [] \/ exists r, Str.join Str.nl l = String "D" r.
Proof.
  induction entries as [|[name check] entries IH]; intros l; cbn.
  - intros [= <-]. left. reflexivity.
  - destruct check as [indexed|e]; [|discriminate].
    destruct (Server.collect entries) as [dbs|e]; [|discriminate].
    destruct indexed; intros [= <-]; [|apply IH; reflexivity].
    right. destruct dbs; cbn; eauto.
Qed.

Lemma collect_raises (entries : list (string * py bool)) (e : exn) :
  Server.collect entries = Raise e
  <-> exists pre name post,
        entries = (pre ++ (name, Raise e) :: post)%list
        /\ Forall (fun p => exists b, snd p = Ok b) pre.
Proof.
  split.
  - induction entries as [|[name check] entries IH]; cbn; [discriminate|].
    destruct check as [indexed|e'].
    + destruct (Server.collect entries) as [dbs|e'] eqn:E; [discriminate|].
      intros [= ->]. destruct (IH eq_refl) as (pre & n & post & -> & Hpre).
      exists ((name, Ok indexed) :: pre), n, post. split; [reflexivity|].
      constructor; [cbn; eauto | exact Hpre].
    + intros [= ->]. exists [], name, entries. split; [reflexivity|].
      constructor.
  - intros (pre & name & post & -> & Hpre).
    induction Hpre as [|[n check] pre (b & Hb) _ IH]; cbn; [reflexivity|].
    cbn in Hb. subst check. rewrite IH. reflexivity.
Qed.

Lemma collect_plain (entries : list (string * bool)) :
  Server.collect (map (fun p => (fst p, Ok (snd p))) entries)
  = Ok (map (fun p => "DB Name: " ++ fst p) (filter snd entries)).
Proof.
  induction entries as [|[name indexed] entries IH]; cbn; [reflexivity|].
  rewrite IH. destruct indexed; reflexivity.
Qed.

(** X18.  [list_vector_databases] answers with the notice
    [(No vector databases found)] exactly when [VECTOR_DB_ROOT.exists()]
    answers [False].  It raises exactly when a question to the file system
    raises: the existence check, the listing of [vector_dbs] (which fails
    when [vector_dbs] is not a folder), or the index check of the first
    entry whose check fails.  When all questions are answered, the listing has
    one line [DB Name: ] and name for each entry that holds [index.faiss], in
    iteration order, so it is the empty text, not the notice, exactly when no
    entry holds one. *)
Theorem listing_notice_only_without_folder (fs : Server.fs_view) :
  (Server.list_vector_databases fs = Ok "(No vector databases found)"
   <-> Server.root_exists fs = Ok false)
  /\ (forall e,
        Server.list_vector_databases fs = Raise e
        <-> Server.root_exists fs = Raise e
            \/ (Server.root_exists fs = Ok true
                /\ (Server.iterdir fs = Raise e
                    \/ exists pre name post,
                         Server.iterdir fs
                         = Ok (pre ++ (name, Raise e) :: post)%list
                         /\ Forall (fun p => exists b, snd p = Ok b) pre)))
  /\ (forall entries,
        Server.root_exists fs = Ok true ->
        Server.iterdir fs = Ok (map (fun p => (fst p, Ok (snd p))) entries) ->
        Server.list_vector_databases fs
        = Ok (Str.join Str.nl
                (map (fun p => "DB Name: " ++ fst p) (filter snd entries)))
        /\ (Server.list_vector_databases fs = Ok ""
            <-> filter snd entries = [])).
Proof.
  unfold Server.list_vector_databases.
  split; [|split].
  - destruct (Server.root_exists fs) as [[|]|e0]; [|tauto|split; discriminate].
    split; [|discriminate]. intros H. exfalso.
    destruct (Server.iterdir fs) as [entries|e0]; [|discriminate].
    destruct (Server.collect entries) as [dbs|e0] eqn:E; [|discriminate].
    injection H as H.
    destruct (collect_labelled entries E) as [->|(r & Hr)];
      [discriminate H | rewrite Hr in H; discriminate H].
  - intros e. split.
    + destruct (Server.root_exists fs) as [[|]|e0];
        [|discriminate|intros [= ->]; left; reflexivity].
      destruct (Server.iterdir fs) as [entries|e0];
        [|intros [= ->]; right; split; [reflexivity | left; reflexivity]].
      destruct (Server.collect entries) as [dbs|e0] eqn:E; [discriminate|].
      intros [= ->]. right. split; [reflexivity|]. right.
      apply collect_raises in E. destruct E as (pre & n & post & -> & Hpre).
      exists pre, n, post. auto.
    + intros [->|(-> & [->|(pre & n & post & -> & Hpre)])];
        [reflexivity | reflexivity |].
      assert (E : Server.collect (pre ++ (n, Raise e) :: post) = Raise e)
        by (apply collect_raises; eauto).
      rewrite E. reflexivity.
  - intros entries -> ->. rewrite collect_plain. split; [reflexivity|].
    destruct (filter snd entries) as [|p [|p' l]]; cbn;
      split; try reflexivity; discriminate.
Qed.

Lemma listing_notice_only_without_folder_witness :
  Server.list_vector_databases
    (Server.FsView (Ok true)
       (Raise (Exn NotADirectoryError "Not a directory: 'vector_dbs'")))
  = Raise (Exn NotADirectoryError "Not a directory: 'vector_dbs'")
  /\ Server.list_vector_databases
       (Server.FsView (Ok true)
          (Ok [("papers", Ok true); ("scratch", Ok false);
               ("notes", Ok true)]))
     = Ok ("DB Name: papers" ++ Str.nl ++ "DB Name: notes")
  /\ Server.list_vector_databases
       (Server.FsView (Ok true) (Ok [("scratch", Ok false)]))
     = Ok "".
Proof.
  split; [|split].
  - apply (proj1 (proj2 (listing_notice_only_without_folder
                           (Server.FsView (Ok true)
                              (Raise (Exn NotADirectoryError
                                          "Not a directory: 'vector_dbs'")))))).
    right. split; [reflexivity|]. left. reflexivity.
  - apply (proj2 (proj2 (listing_notice_only_without_folder
                           (Server.FsView (Ok true)
                              (Ok [("papers", Ok true); ("scratch", Ok false);
                                   ("notes", Ok true)]))))
             [("papers", true); ("scratch", false); ("notes", true)]);
      reflexivity.
  - apply (proj2 (proj2 (listing_notice_only_without_folder
                           (Server.FsView (Ok true)
                              (Ok [("scratch", Ok false)]))))
             [("scratch", false)]); reflexivity.
Defined.

(** The recursion limit at its edge: one tool round takes three node
    executions; with the limit at three the last node still runs and its
    answer is kept, but the invocation fails; with the limit at four it
    succeeds. *)
Example limit_reached_on_the_last_node :
  let at_limit n :=
    Backend Sample.stub_llm Sample.stub_tool Sample.stub_prompt
            Sample.stub_resources Json.loads n in
  snd (ainvoke (at_limit 3) [] "find papers")
  = Raise (Exn GraphRecursionError "Recursion limit reached")
  /\ last (fst (ainvoke (at_limit 3) [] "find papers")) (HumanMessage "")
     = AIMessage "Here is what I found." []
  /\ snd (ainvoke (at_limit 4) [] "find papers")
     = Ok "Here is what I found.".
Proof. repeat split. Qed.
